(** * Server actions of the banking manager: a shallow embedding

    The repository's core is three files of server actions that forward
    requests to external collaborators (the Appwrite identity and document
    store, the Plaid aggregator, the Dwolla payment processor) and reshape
    their answers:

    - [lib/actions/user.actions.ts]        (module [UserActions])
    - the transaction actions              (module [TransactionActions])
    - the Dwolla actions                   (module [DwollaActions])

    Every action is an [async] function whose body is one [try]/[catch]
    around a sequence of awaited calls.  The embedding keeps that shape: an
    action is a computation in a state-and-exception monad whose state is the
    history of calls made to the collaborators so far.  What the actions
    import (the three SDKs, the Next.js runtime, and the helpers of
    [lib/utils], [lib/appwrite] and [lib/plaid]) is not modelled: it is the
    content of an environment record [Env], and every statement is
    quantified over it.

    [getLoggedInUser], [createLinkToken], [createTransfer] and the start-up
    check [getEnvironment] take no part in the properties below and are left
    out. *)

From stdpp Require Import base option list strings gmap.
From Stdlib Require Import ZArith Lia Ascii.

#[local] Open Scope string_scope.
#[local] Open Scope Z_scope.
#[local] Open Scope list_scope.
#[local] Open Scope stdpp_scope.
#[local] Set Warnings "-register-all".

(** ** JavaScript values *)

Module Js.

(** The values the actions pass around.  Objects are finite maps from
    property names to values; the object spread is a union of maps. *)
Inductive JsVal : Type :=
| VUndefined
| VNull
| VBool (b : bool)
| VNum (n : Z)
| VStr (s : string)
| VArr (l : list JsVal)
| VObj (o : gmap string JsVal).

(** [!v] is [negb (truthy v)]. *)
Definition truthy (v : JsVal) : bool :=
  match v with
  | VUndefined | VNull => false
  | VBool b => b
  | VNum n => negb (Z.eqb n 0)
  | VStr s => negb (String.eqb s "")
  | VArr _ | VObj _ => true
  end.

(** [{...base, ...src}]: properties of [src] win over those of [base]. *)
Definition spread (base src : gmap string JsVal) : gmap string JsVal :=
  src ∪ base.

(** [arr[0]] on an array of values. *)
Definition first (l : list JsVal) : JsVal :=
  match l with
  | [] => VUndefined
  | v :: _ => v
  end.

(** The value of [headers.get(name)]: a string, or [null] when the header
    is absent. *)
Definition header (h : option string) : JsVal :=
  match h with
  | Some s => VStr s
  | None => VNull
  end.

(** What a [throw] carries. *)
Inductive Exn : Type :=
| ServiceError (detail : string)   (* raised inside a collaborator *)
| ErrorObject (message : string)   (* [new Error(message)] *)
| ErrorConstructor                 (* [throw Error], the constructor itself *)
| TypeError (message : string)     (* property read on [undefined] *)
| SyntaxError (message : string).  (* [JSON.parse] on a non-JSON text *)

(** How the evaluation of an expression ends. *)
Inductive Completion (A : Type) : Type :=
| Normal (a : A)
| Throw (e : Exn).
#[global] Arguments Normal {A} a.
#[global] Arguments Throw {A} e.

Definition completion_map {A B} (f : A → B) (c : Completion A) : Completion B :=
  match c with
  | Normal a => Normal (f a)
  | Throw e => Throw e
  end.

End Js.
Export Js.

(** ** The collaborators' interface *)

Module Sdk.

(** [Query.equal(attribute, value)] of node-appwrite. *)
Inductive Query : Type :=
| QueryEqual (attribute : string) (value : JsVal).

(** The account object of the identity service; [$id] is
    [account_dollar_id]. *)
Record Account : Type := { account_dollar_id : string }.

Record Session : Type := { secret : string; session_userId : string }.

(** The answer of [database.listDocuments]. *)
Record DocumentList : Type := { total : Z; documents : list JsVal }.

(** [response.data] of [itemPublicTokenExchange]. *)
Record TokenExchange : Type := { access_token : string; item_id : string }.

(** One element of [response.data.accounts] of [accountsGet]. *)
Record AccountBase : Type := { account_id : string; name : string }.

(** The answer of [dwollaClient.post]: the [location] header (absent or
    a string) and [body._links]. *)
Record DwollaResponse : Type := { location : option string; body_links : JsVal }.

(** A call that leaves the process. *)
Inductive Call : Type :=
| CreateAdminClient
| CreateSessionClient
| AccountCreate (userId email password name : string)
| AccountCreateEmailPasswordSession (email password : string)
| AccountDeleteSession (sessionId : string)
| DatabaseListDocuments (databaseId collectionId : string) (queries : list Query)
| DatabaseCreateDocument (databaseId collectionId documentId : string)
                         (data : gmap string JsVal)
| CookiesSet (name value : string) (options : gmap string JsVal)
| CookiesDelete (name : string)
| RevalidatePath (path : string)
| PlaidItemPublicTokenExchange (public_token : string)
| PlaidAccountsGet (access_token : string)
| PlaidProcessorTokenCreate (access_token account_id processor : string)
| DwollaPost (path : string) (body : JsVal)
| ConsoleLog (error : Exn)
| ConsoleError (label : string) (error : Exn).

(** What a call answered. *)
Inductive Response : Type :=
| RUnit
| RAccount (a : option Account)
| RSession (s : Session)
| RDocumentList (l : DocumentList)
| RDocument (d : JsVal)
| RTokenExchange (d : TokenExchange)
| RAccounts (l : list AccountBase)
| RProcessorToken (t : string)
| RDwolla (r : DwollaResponse).

(** One entry of the history: the call and how it ended. *)
Inductive Event : Type :=
| Ev (call : Call) (outcome : Completion Response).

Definition ev_call (e : Event) : Call := let 'Ev c _ := e in c.
Definition ev_outcome (e : Event) : Completion Response := let 'Ev _ r := e in r.

Abbreviation History := (list Event).

(** Everything the three files import or read from [process.env].  A
    collaborator's answer may depend on all that happened before, and a
    collaborator may throw.  The helpers of [lib/utils] are functions of
    their argument alone; nothing more is assumed of them. *)
Record Env : Type := {
  (* process.env *)
  DATABASE_ID : string;
  USER_COLLECTION_ID : string;
  BANK_COLLECTION_ID : string;
  TRANSACTION_COLLECTION_ID : string;
  (* ../utils *)
  utils_parseStringify : JsVal → Completion JsVal;
  utils_extractCustomerIdFromUrl : JsVal → Completion JsVal;
  utils_encryptId : JsVal → Completion JsVal;
  (* ../appwrite *)
  appwrite_createAdminClient : History → Completion unit;
  appwrite_createSessionClient : History → Completion unit;
  (* node-appwrite *)
  appwrite_ID_unique : History → string;
  appwrite_account_create :
    History → string → string → string → string → Completion (option Account);
  appwrite_account_createEmailPasswordSession :
    History → string → string → Completion Session;
  appwrite_account_deleteSession : History → string → Completion unit;
  appwrite_database_listDocuments :
    History → string → string → list Query → Completion DocumentList;
  appwrite_database_createDocument :
    History → string → string → string → gmap string JsVal → Completion JsVal;
  (* next/headers, next/cache *)
  next_cookies_set : History → string → string → gmap string JsVal → Completion unit;
  next_cookies_delete : History → string → Completion unit;
  next_revalidatePath : History → string → Completion unit;
  (* plaid *)
  plaid_itemPublicTokenExchange : History → string → Completion TokenExchange;
  plaid_accountsGet : History → string → Completion (list AccountBase);
  plaid_processorTokenCreate : History → string → string → string → Completion string;
  (* dwolla-v2 *)
  dwolla_post : History → string → JsVal → Completion DwollaResponse;
}.

End Sdk.
Export Sdk.

(** ** The monad of actions *)

Module Action.

(** An action runs from a history and ends normally or by a throw, in an
    extended history. *)
Definition M (A : Type) : Type := History → Completion A * History.

Definition ret {A} (a : A) : M A := λ h, (Normal a, h).

Definition throw {A} (e : Exn) : M A := λ h, (Throw e, h).

Definition bind {A B} (m : M A) (k : A → M B) : M B :=
  λ h, match m h with
       | (Normal a, h') => k a h'
       | (Throw e, h') => (Throw e, h')
       end.

#[global] Instance M_ret : MRet M := @ret.
#[global] Instance M_bind : MBind M := λ A B k m, bind m k.

(** [try { body } catch (error) { handler }] *)
Definition try_catch {A} (body : M A) (handler : Exn → M A) : M A :=
  λ h, match body h with
       | (Normal a, h') => (Normal a, h')
       | (Throw e, h') => handler e h'
       end.

(** A pure import that may throw. *)
Definition pure {A} (c : Completion A) : M A := λ h, (c, h).

(** Read from a collaborator without leaving a trace ([ID.unique()]). *)
Definition ask {A} (f : History → A) : M A := λ h, (Normal (f h), h).

(** Call a collaborator: its answer is computed from the history so far,
    and the call is appended to the history together with its outcome. *)
Definition call {A} (c : Call) (view : A → Response)
           (answer : History → Completion A) : M A :=
  λ h, let r := answer h in (r, h ++ [Ev c (completion_map view r)]).

(** [console.log(error)], [console.error(label, error)] *)
Definition console_log (error : Exn) : M unit :=
  call (ConsoleLog error) (λ _, RUnit) (λ _, Normal ()).
Definition console_error (label : string) (error : Exn) : M unit :=
  call (ConsoleError label error) (λ _, RUnit) (λ _, Normal ()).

End Action.
Export Action.

(** ** The imports, as actions *)

Section Imports.
Context (env : Env).

(* ../utils *)
Definition parseStringify (value : JsVal) : M JsVal :=
  pure (utils_parseStringify env value).
Definition extractCustomerIdFromUrl (url : JsVal) : M JsVal :=
  pure (utils_extractCustomerIdFromUrl env url).
Definition encryptId (id : JsVal) : M JsVal :=
  pure (utils_encryptId env id).

(* ../appwrite, node-appwrite *)
Definition createAdminClient : M unit :=
  call CreateAdminClient (λ _, RUnit) (appwrite_createAdminClient env).
Definition createSessionClient : M unit :=
  call CreateSessionClient (λ _, RUnit) (appwrite_createSessionClient env).
Definition ID_unique : M string :=
  ask (appwrite_ID_unique env).
Definition account_create (userId email password name : string) : M (option Account) :=
  call (AccountCreate userId email password name) RAccount
       (λ h, appwrite_account_create env h userId email password name).
Definition account_createEmailPasswordSession (email password : string) : M Session :=
  call (AccountCreateEmailPasswordSession email password) RSession
       (λ h, appwrite_account_createEmailPasswordSession env h email password).
Definition account_deleteSession (sessionId : string) : M unit :=
  call (AccountDeleteSession sessionId) (λ _, RUnit)
       (λ h, appwrite_account_deleteSession env h sessionId).
Definition database_listDocuments (databaseId collectionId : string)
           (queries : list Query) : M DocumentList :=
  call (DatabaseListDocuments databaseId collectionId queries) RDocumentList
       (λ h, appwrite_database_listDocuments env h databaseId collectionId queries).
Definition database_createDocument (databaseId collectionId documentId : string)
           (data : gmap string JsVal) : M JsVal :=
  call (DatabaseCreateDocument databaseId collectionId documentId data) RDocument
       (λ h, appwrite_database_createDocument env h databaseId collectionId documentId data).

(* next/headers, next/cache *)
Definition cookies_set (name value : string) (options : gmap string JsVal) : M unit :=
  call (CookiesSet name value options) (λ _, RUnit)
       (λ h, next_cookies_set env h name value options).
Definition cookies_delete (name : string) : M unit :=
  call (CookiesDelete name) (λ _, RUnit) (λ h, next_cookies_delete env h name).
Definition revalidatePath (path : string) : M unit :=
  call (RevalidatePath path) (λ _, RUnit) (λ h, next_revalidatePath env h path).

(* plaid *)
Definition plaidClient_itemPublicTokenExchange (public_token : string) : M TokenExchange :=
  call (PlaidItemPublicTokenExchange public_token) RTokenExchange
       (λ h, plaid_itemPublicTokenExchange env h public_token).
Definition plaidClient_accountsGet (access_token : string) : M (list AccountBase) :=
  call (PlaidAccountsGet access_token) RAccounts
       (λ h, plaid_accountsGet env h access_token).
Definition plaidClient_processorTokenCreate
           (access_token account_id processor : string) : M string :=
  call (PlaidProcessorTokenCreate access_token account_id processor) RProcessorToken
       (λ h, plaid_processorTokenCreate env h access_token account_id processor).

(* dwolla-v2 *)
Definition dwollaClient_post (path : string) (body : JsVal) : M DwollaResponse :=
  call (DwollaPost path body) RDwolla (λ h, dwolla_post env h path body).

End Imports.

(** ** The Dwolla actions *)

Module DwollaActions.

(** The two parameter types, as the actions read them. *)
Record CreateFundingSourceOptions : Type := {
  customerId : string;
  fundingSourceName : string;
  plaidToken : string;
  _links : JsVal;
}.

Record AddFundingSourceParams : Type := {
  dwollaCustomerId : string;
  processorToken : string;
  bankName : string;
}.

Section WithEnv.
Context (env : Env).

Definition createFundingSource (options : CreateFundingSourceOptions) : M JsVal :=
  try_catch
    (res ← dwollaClient_post env
             ("customers/" +:+ customerId options +:+ "/funding-sources")
             (VObj (<["name" := VStr (fundingSourceName options)]>
                    (<["plaidToken" := VStr (plaidToken options)]> ∅)));
     mret (header (location res)))
    (λ err,
       _ ← console_error "Creating a Funding Source Failed: " err;
       mret VUndefined).

Definition createOnDemandAuthorization : M JsVal :=
  try_catch
    (onDemandAuthorization ← dwollaClient_post env "on-demand-authorizations" VUndefined;
     let authLink := body_links onDemandAuthorization in
     mret authLink)
    (λ err,
       _ ← console_error "Creating an On Demand Authorization Failed: " err;
       mret VUndefined).

Definition createDwollaCustomer (newCustomer : gmap string JsVal) : M JsVal :=
  try_catch
    (res ← dwollaClient_post env "customers" (VObj newCustomer);
     mret (header (location res)))
    (λ err,
       _ ← console_error "Creating a Dwolla Customer Failed: " err;
       mret VUndefined).

Definition addFundingSource (params : AddFundingSourceParams) : M JsVal :=
  try_catch
    (dwollaAuthLinks ← createOnDemandAuthorization;
     let fundingSourceOptions :=
       {| customerId := dwollaCustomerId params;
          fundingSourceName := bankName params;
          plaidToken := processorToken params;
          _links := dwollaAuthLinks |} in
     createFundingSource fundingSourceOptions)
    (λ err,
       _ ← console_error "Transfer fund failed: " err;
       mret VUndefined).

End WithEnv.

End DwollaActions.

(** ** The transaction actions *)

Module TransactionActions.

Section WithEnv.
Context (env : Env).

(** [transaction] is only ever spread into the document, so it is kept
    as the object it is at run time. *)
Definition createTransaction (transaction : gmap string JsVal) : M JsVal :=
  try_catch
    (_ ← createAdminClient env;
     documentId ← ID_unique env;
     newTransaction ←
       database_createDocument env
         (DATABASE_ID env) (TRANSACTION_COLLECTION_ID env) documentId
         (spread (<["channel" := VStr "Online"]>
                  (<["category" := VStr "Transfer"]> ∅))
                 transaction);
     parseStringify env newTransaction)
    (λ error,
       _ ← console_log error;
       mret VUndefined).

Definition getTransactionsByBankId (bankId : string) : M JsVal :=
  try_catch
    (_ ← createAdminClient env;
     senderTransactions ←
       database_listDocuments env (DATABASE_ID env) (TRANSACTION_COLLECTION_ID env)
         [QueryEqual "senderBankId" (VStr bankId)];
     receiverTransactions ←
       database_listDocuments env (DATABASE_ID env) (TRANSACTION_COLLECTION_ID env)
         [QueryEqual "receiverBankId" (VStr bankId)];
     let transactions :=
       VObj (<["total" :=
                 VNum (total senderTransactions + total receiverTransactions)]>
             (<["documents" :=
                  VArr (documents senderTransactions
                        ++ documents receiverTransactions)]> ∅)) in
     parseStringify env transactions)
    (λ error,
       _ ← console_log error;
       mret VUndefined).

End WithEnv.

End TransactionActions.

(** ** The user actions *)

Module UserActions.
Import DwollaActions.

(** The argument of [signUp], destructured as [{password, ...userData}]:
    the properties the action reads are strings; [others] holds the
    remaining properties of the argument (address, date of birth, ...). *)
Record SignUpParams : Type := {
  password : string;
  email : string;
  firstName : string;
  lastName : string;
  others : gmap string JsVal;
}.

(** The rest object [userData]: every property but [password]. *)
Definition userData (p : SignUpParams) : gmap string JsVal :=
  <["email" := VStr (email p)]>
    (<["firstName" := VStr (firstName p)]>
       (<["lastName" := VStr (lastName p)]>
          (delete "password" (others p)))).

(** The two properties of [user] that the linking workflow reads;
    [$id] is [user_dollar_id]. *)
Record User : Type := {
  user_dollar_id : string;
  user_dwollaCustomerId : string;
}.

Record exchangePublicTokenProps : Type := {
  publicToken : string;
  user : User;
}.

(** [fundingSourceUrl] and [shareableId] are passed on as they come from
    [addFundingSource] and [encryptId]. *)
Record createBankAccountProps : Type := {
  userId : string;
  bankId : string;
  accountId : string;
  accessToken : string;
  fundingSourceUrl : JsVal;
  shareableId : JsVal;
}.

(** The options of the session cookie. *)
Definition session_cookie_options : gmap string JsVal :=
  <["path" := VStr "/"]>
    (<["httpOnly" := VBool true]>
       (<["sameSite" := VStr "strict"]>
          (<["secure" := VBool true]> ∅))).

Section WithEnv.
Context (env : Env).

Definition getUserInfo (userId : string) : M JsVal :=
  try_catch
    (_ ← createAdminClient env;
     user ← database_listDocuments env (DATABASE_ID env) (USER_COLLECTION_ID env)
              [QueryEqual "userId" (VArr [VStr userId])];
     parseStringify env (first (documents user)))
    (λ error,
       _ ← console_log error;
       mret VUndefined).

Definition signIn (email password : string) : M JsVal :=
  try_catch
    (_ ← createAdminClient env;
     session ← account_createEmailPasswordSession env email password;
     _ ← cookies_set env "appwrite-session" (secret session) session_cookie_options;
     user ← getUserInfo (session_userId session);
     parseStringify env user)
    (λ error,
       _ ← console_error "Error" error;
       mret VUndefined).

Definition signUp (p : SignUpParams) : M JsVal :=
  let userData := userData p in
  try_catch
    (_ ← createAdminClient env;
     accountId ← ID_unique env;
     newUserAccount ←
       account_create env accountId (email p) (password p)
         (firstName p +:+ " " +:+ lastName p);
     match newUserAccount with
     | None => throw (ErrorObject "Error creating user")
     | Some newUserAccount =>
         dwollaCustomerUrl ←
           createDwollaCustomer env (<["type" := VStr "personal"]> userData);
         if negb (truthy dwollaCustomerUrl)
         then throw (ErrorObject "Error creating Dwolla customer")
         else
           dwollaCustomerId ← extractCustomerIdFromUrl env dwollaCustomerUrl;
           documentId ← ID_unique env;
           newUser ←
             database_createDocument env
               (DATABASE_ID env) (USER_COLLECTION_ID env) documentId
               (<["dwollaCustomerUrl" := dwollaCustomerUrl]>
                  (<["dwollaCustomerId" := dwollaCustomerId]>
                     (<["userId" := VStr (account_dollar_id newUserAccount)]>
                        userData)));
           session ← account_createEmailPasswordSession env (email p) (password p);
           _ ← cookies_set env "appwrite-session" (secret session)
                 session_cookie_options;
           parseStringify env newUser
     end)
    (λ error,
       _ ← console_error "Error" error;
       mret VUndefined).

(** The [try] block ends without a [return]: the action then yields
    [undefined]. *)
Definition logoutAccount : M JsVal :=
  try_catch
    (_ ← createSessionClient env;
     _ ← cookies_delete env "appwrite-session";
     _ ← account_deleteSession env "current";
     mret VUndefined)
    (λ error, mret VNull).

Definition createBankAccount (props : createBankAccountProps) : M JsVal :=
  try_catch
    (_ ← createAdminClient env;
     documentId ← ID_unique env;
     bankAccount ←
       database_createDocument env
         (DATABASE_ID env) (BANK_COLLECTION_ID env) documentId
         (<["userId" := VStr (userId props)]>
            (<["bankId" := VStr (bankId props)]>
               (<["accountId" := VStr (accountId props)]>
                  (<["accessToken" := VStr (accessToken props)]>
                     (<["fundingSourceUrl" := fundingSourceUrl props]>
                        (<["shareableId" := shareableId props]> ∅))))));
     parseStringify env bankAccount)
    (λ error, mret VUndefined).

Definition exchangePublicToken (props : exchangePublicTokenProps) : M JsVal :=
  try_catch
    (response ← plaidClient_itemPublicTokenExchange env (publicToken props);
     let accessToken := access_token response in
     let itemId := item_id response in
     accountsResponse ← plaidClient_accountsGet env accessToken;
     match accountsResponse with
     | [] =>
         (* [accountData] is [undefined]; reading [accountData.account_id] throws *)
         throw (TypeError "Cannot read properties of undefined (reading 'account_id')")
     | accountData :: _ =>
         processorToken ←
           plaidClient_processorTokenCreate env
             accessToken (account_id accountData) "dwolla";
         fundingSourceUrl ←
           addFundingSource env
             {| dwollaCustomerId := user_dwollaCustomerId (user props);
                processorToken := processorToken;
                bankName := name accountData |};
         if negb (truthy fundingSourceUrl)
         then throw ErrorConstructor
         else
           shareableId ← encryptId env (VStr (account_id accountData));
           _ ← createBankAccount
                 {| userId := user_dollar_id (user props);
                    bankId := itemId;
                    accountId := account_id accountData;
                    accessToken := accessToken;
                    fundingSourceUrl := fundingSourceUrl;
                    shareableId := shareableId |};
           _ ← revalidatePath env "/";
           parseStringify env
             (VObj (<["publicTokenExchange" := VStr "complete"]> ∅))
     end)
    (λ error,
       _ ← console_error "An error occurred while creating exchanging token:" error;
       mret VUndefined).

Definition getBanks (userId : string) : M JsVal :=
  try_catch
    (_ ← createAdminClient env;
     banks ← database_listDocuments env (DATABASE_ID env) (BANK_COLLECTION_ID env)
               [QueryEqual "userId" (VArr [VStr userId])];
     parseStringify env (VArr (documents banks)))
    (λ error,
       _ ← console_log error;
       mret VUndefined).

Definition getBank (documentId : string) : M JsVal :=
  try_catch
    (_ ← createAdminClient env;
     bank ← database_listDocuments env (DATABASE_ID env) (BANK_COLLECTION_ID env)
              [QueryEqual "$id" (VArr [VStr documentId])];
     parseStringify env (first (documents bank)))
    (λ error,
       _ ← console_log error;
       mret VUndefined).

Definition getBankByAccountId (accountId : string) : M JsVal :=
  try_catch
    (_ ← createAdminClient env;
     bank ← database_listDocuments env (DATABASE_ID env) (BANK_COLLECTION_ID env)
              [QueryEqual "accountId" (VArr [VStr accountId])];
     if negb (Z.eqb (total bank) 1)
     then mret VNull
     else parseStringify env (first (documents bank)))
    (λ error,
       _ ← console_log error;
       mret VUndefined).

End WithEnv.

End UserActions.

(** ** Reading a history *)

Module Trace.

(** The step of the linking workflow a call belongs to:
    1 token exchange, 2 accounts, 3 processor token, 4 funding source,
    5 Bank-record persistence, 6 revalidation.  In the workflow only
    [createBankAccount] asks for the admin client and writes a document, and
    only [addFundingSource] posts to the processor.  The console is no
    step. *)
Definition step_of (c : Call) : option nat :=
  match c with
  | PlaidItemPublicTokenExchange _ => Some 1%nat
  | PlaidAccountsGet _ => Some 2%nat
  | PlaidProcessorTokenCreate _ _ _ => Some 3%nat
  | DwollaPost _ _ => Some 4%nat
  | CreateAdminClient | DatabaseCreateDocument _ _ _ _ => Some 5%nat
  | RevalidatePath _ => Some 6%nat
  | _ => None
  end.

(** The path of a funding-source registration, [customers/<id>/funding-sources]. *)
Definition is_funding_sources_path (path : string) : bool :=
  String.prefix "customers/" path.

(** The step an event shows to have failed, if any.  Steps 1, 3, 5 and 6
    fail when their call throws; step 2 also when the accounts list is
    empty (there is no first account); step 4 when the registration call
    throws or yields no non-empty URL. *)
Definition failed_step (e : Event) : option nat :=
  match e with
  | Ev (PlaidAccountsGet _) (Normal (RAccounts [])) => Some 2%nat
  | Ev (DwollaPost path _) r =>
      if is_funding_sources_path path
      then match r with
           | Normal (RDwolla res) =>
               if truthy (header (location res)) then None else Some 4%nat
           | _ => Some 4%nat
           end
      else None
  | Ev c (Throw _) => step_of c
  | Ev _ (Normal _) => None
  end.

(** The event is a funding-source registration that yielded the URL [url]. *)
Definition registered_funding_source (url : string) (e : Event) : Prop :=
  ∃ path body res,
    e = Ev (DwollaPost path body) (Normal (RDwolla res))
    ∧ is_funding_sources_path path = true
    ∧ location res = Some url.

(** Calls by kind, for counting. *)
Definition is_account_create (e : Event) : bool :=
  match ev_call e with AccountCreate _ _ _ _ => true | _ => false end.

Definition is_customer_create (e : Event) : bool :=
  match ev_call e with
  | DwollaPost path _ => String.eqb path "customers"
  | _ => false
  end.

(** The documents whose creation the store acknowledged, per collection. *)
Definition persisted (collectionId : string) (h : History) : list (gmap string JsVal) :=
  omap (λ e, match e with
             | Ev (DatabaseCreateDocument _ c _ data) (Normal _) =>
                 if String.eqb c collectionId then Some data else None
             | _ => None
             end) h.

(** The request [createFundingSource] sends: the customer id in the path,
    the name and the token in the body. *)
Definition funding_source_path (options : DwollaActions.CreateFundingSourceOptions)
  : string :=
  "customers/" +:+ DwollaActions.customerId options +:+ "/funding-sources".
Definition funding_source_body (options : DwollaActions.CreateFundingSourceOptions)
  : JsVal :=
  VObj (<["name" := VStr (DwollaActions.fundingSourceName options)]>
        (<["plaidToken" := VStr (DwollaActions.plaidToken options)]> ∅)).

(** Events that recur in the histories below. *)
Definition connected : Event := Ev CreateAdminClient (Normal RUnit).
Definition opened : Event := Ev CreateSessionClient (Normal RUnit).
Definition deleted : Event := Ev (CookiesDelete "appwrite-session") (Normal RUnit).
Definition revoked : Event := Ev (AccountDeleteSession "current") (Normal RUnit).

End Trace.
Export Trace.

(** ** A test double of the collaborators *)

Module Double.

(** [JSON.parse(JSON.stringify(value))] on the values used below: a copy,
    except that [undefined] has no JSON text. *)
Definition json_round_trip (value : JsVal) : Completion JsVal :=
  match value with
  | VUndefined => Throw (SyntaxError "Unexpected token u in JSON at position 0")
  | _ => Normal value
  end.

Fixpoint last_segment (acc s : string) : string :=
  match s with
  | EmptyString => acc
  | String c s' =>
      if Ascii.eqb c "/"%char then last_segment "" s'
      else last_segment (acc +:+ String c "") s'
  end.

Definition last_path_segment (url : JsVal) : Completion JsVal :=
  match url with
  | VStr s => Normal (VStr (last_segment "" s))
  | _ => Throw (TypeError "url.split is not a function")
  end.

Definition tagged (id : JsVal) : Completion JsVal :=
  match id with
  | VStr s => Normal (VStr ("enc:" +:+ s))
  | _ => Throw (TypeError "id is not a string")
  end.

Definition down {A} (what : string) : Completion A := Throw (ServiceError what).

(** What the double answers; every switch that is off means the
    collaborator works. *)
Record Fixture : Type := {
  session_client_down : bool;
  database_write_down : bool;
  authorization_down : bool;
  accounts : list AccountBase;
  listing : list Query → DocumentList;
}.

Definition env_of (fx : Fixture) : Env :=
  {| DATABASE_ID := "db";
     USER_COLLECTION_ID := "users";
     BANK_COLLECTION_ID := "banks";
     TRANSACTION_COLLECTION_ID := "transactions";
     utils_parseStringify := json_round_trip;
     utils_extractCustomerIdFromUrl := last_path_segment;
     utils_encryptId := tagged;
     appwrite_createAdminClient := λ _, Normal ();
     appwrite_createSessionClient := λ _,
       if session_client_down fx then down "No session" else Normal ();
     appwrite_ID_unique := λ _, "unique()";
     appwrite_account_create := λ _ userId _ _ _,
       Normal (Some {| account_dollar_id := "acct-1" |});
     appwrite_account_createEmailPasswordSession := λ _ _ _,
       Normal {| secret := "s3cr3t"; session_userId := "acct-1" |};
     appwrite_account_deleteSession := λ _ _, Normal ();
     appwrite_database_listDocuments := λ _ _ _ queries, Normal (listing fx queries);
     appwrite_database_createDocument := λ _ _ _ documentId data,
       if database_write_down fx then down "document store unavailable"
       else Normal (VObj (<["$id" := VStr "doc-1"]> data));
     next_cookies_set := λ _ _ _ _, Normal ();
     next_cookies_delete := λ _ _, Normal ();
     next_revalidatePath := λ _ _, Normal ();
     plaid_itemPublicTokenExchange := λ _ _,
       Normal {| access_token := "access-1"; item_id := "item-1" |};
     plaid_accountsGet := λ _ _, Normal (accounts fx);
     plaid_processorTokenCreate := λ _ _ _ _, Normal "processor-1";
     dwolla_post := λ _ path _,
       if String.eqb path "on-demand-authorizations"
       then (if authorization_down fx then down "authorization unavailable"
             else Normal {| location := None;
                            body_links := VObj (<["self" := VStr "auth-1"]> ∅) |})
       else Normal {| location := Some ("https://api.dwolla.test/" +:+ path +:+ "/r-1");
                      body_links := VUndefined |} |}.

Definition checking : AccountBase :=
  {| account_id := "acc-1"; name := "Checking" |}.

Definition no_documents : DocumentList := {| total := 0; documents := [] |}.

(** Everything works; the item has one account; the store is empty. *)
Definition healthy : Fixture :=
  {| session_client_down := false;
     database_write_down := false;
     authorization_down := false;
     accounts := [checking];
     listing := λ _, no_documents |}.

Definition user_1 : UserActions.User :=
  {| UserActions.user_dollar_id := "user-1";
     UserActions.user_dwollaCustomerId := "cust-1" |}.

Definition link_request : UserActions.exchangePublicTokenProps :=
  {| UserActions.publicToken := "public-1"; UserActions.user := user_1 |}.

(** The same, with one switch flipped. *)
Definition without_accounts : Fixture :=
  {| session_client_down := false;
     database_write_down := false;
     authorization_down := false;
     accounts := [];
     listing := λ _, no_documents |}.

Definition store_down : Fixture :=
  {| session_client_down := false;
     database_write_down := true;
     authorization_down := false;
     accounts := [checking];
     listing := λ _, no_documents |}.

Definition signed_out : Fixture :=
  {| session_client_down := true;
     database_write_down := false;
     authorization_down := false;
     accounts := [checking];
     listing := λ _, no_documents |}.

Definition authorization_failing : Fixture :=
  {| session_client_down := false;
     database_write_down := false;
     authorization_down := true;
     accounts := [checking];
     listing := λ _, no_documents |}.

(** A store that answers every listing with [f]. *)
Definition stocked (f : list Query → DocumentList) : Fixture :=
  {| session_client_down := false;
     database_write_down := false;
     authorization_down := false;
     accounts := [checking];
     listing := f |}.

Definition document (id : string) (fields : gmap string JsVal) : JsVal :=
  VObj (<["$id" := VStr id]> fields).

Definition bank_1 : JsVal := document "bank-1" (<["accountId" := VStr "acc-1"]> ∅).
Definition bank_2 : JsVal := document "bank-2" (<["accountId" := VStr "acc-1"]> ∅).

Definition user_doc_1 : JsVal := document "u-1" (<["userId" := VStr "acct-1"]> ∅).
Definition user_doc_2 : JsVal := document "u-2" (<["userId" := VStr "acct-1"]> ∅).

Definition transfer_doc (id sender receiver : string) : JsVal :=
  document id (<["senderBankId" := VStr sender]>
               (<["receiverBankId" := VStr receiver]> ∅)).

(** Two transfers from X to Y and one from Y to X. *)
Definition transfers_of_X (queries : list Query) : DocumentList :=
  match queries with
  | [QueryEqual attribute _] =>
      if String.eqb attribute "senderBankId"
      then {| total := 2;
              documents := [transfer_doc "t-1" "X" "Y"; transfer_doc "t-2" "X" "Y"] |}
      else {| total := 1; documents := [transfer_doc "t-3" "Y" "X"] |}
  | _ => no_documents
  end.

(** The sign-up of the scenario in the specification. *)
Definition sign_up_request : UserActions.SignUpParams :=
  {| UserActions.password := "pw";
     UserActions.email := "a@b.com";
     UserActions.firstName := "A";
     UserActions.lastName := "B";
     UserActions.others := ∅ |}.

(** A transfer as the form submits it, and one that brings a [channel]
    of its own. *)
Definition plain_transfer : gmap string JsVal :=
  <["senderBankId" := VStr "X"]>
    (<["receiverBankId" := VStr "Y"]>
       (<["amount" := VNum 25]>
          (<["currency" := VStr "USD"]> ∅))).

Definition offline_transfer : gmap string JsVal :=
  <["channel" := VStr "Offline"]> plain_transfer.

Definition funding_request : DwollaActions.AddFundingSourceParams :=
  {| DwollaActions.dwollaCustomerId := "cust-1";
     DwollaActions.processorToken := "processor-1";
     DwollaActions.bankName := "Checking" |}.

End Double.

(** ** The rest of the Dwolla actions *)

Module DwollaClient.

(** [getEnvironment], on the value of [process.env.DWOLLA_ENV] (a string,
    or [undefined] when the variable is not set).  The [switch] compares
    with [===]. *)
Definition getEnvironment (DWOLLA_ENV : JsVal) : Completion string :=
  match DWOLLA_ENV with
  | VStr environment =>
      if String.eqb environment "sandbox" then Normal "sandbox"
      else if String.eqb environment "production" then Normal "production"
      else Throw (ErrorObject
             "Dwolla environment should either be set to `sandbox` or `production`")
  | _ =>
      Throw (ErrorObject
        "Dwolla environment should either be set to `sandbox` or `production`")
  end.

(** The parameters of [createTransfer]; [amount] is passed on untouched. *)
Record TransferParams : Type := {
  sourceFundingSourceUrl : string;
  destinationFundingSourceUrl : string;
  amount : JsVal;
}.

Definition createTransfer (env : Env) (params : TransferParams) : M JsVal :=
  try_catch
    (let requestBody :=
       <["_links" :=
           VObj (<["source" :=
                     VObj (<["href" := VStr (sourceFundingSourceUrl params)]> ∅)]>
                 (<["destination" :=
                      VObj (<["href" := VStr (destinationFundingSourceUrl params)]> ∅)]>
                    ∅))]>
         (<["amount" :=
              VObj (<["currency" := VStr "USD"]>
                    (<["value" := amount params]> ∅))]> ∅) in
     res ← dwollaClient_post env "transfers" (VObj requestBody);
     mret (header (location res)))
    (λ err,
       _ ← console_error "Transfer fund failed: " err;
       mret VUndefined).

End DwollaClient.

(** ** The rest of the user actions, and the page that uses them *)

Module SessionActions.

(** [tokenParams] of [createLinkToken]. *)
Record LinkTokenCreateRequest : Type := {
  client_user_id : string;
  client_name : string;
  products : list string;
  language : string;
  country_codes : list string;
}.

(** Two more collaborators: [account.get()] of the session client and
    [plaidClient.linkTokenCreate].  Both are read at the current history
    and, like [ID.unique()], leave no entry in it; the first answers with
    the account, the second with [response.data.link_token]. *)
Record SessionEnv : Type := {
  appwrite_account_get : History → Completion Account;
  plaid_linkTokenCreate : History → LinkTokenCreateRequest → Completion string;
}.

Definition account_get (senv : SessionEnv) : M Account :=
  λ h, (appwrite_account_get senv h, h).

Definition plaidClient_linkTokenCreate (senv : SessionEnv)
           (request : LinkTokenCreateRequest) : M string :=
  λ h, (plaid_linkTokenCreate senv h request, h).

(** The properties of [user] that [createLinkToken] reads. *)
Record LinkUser : Type := {
  link_dollar_id : string;
  link_firstName : string;
  link_lastName : string;
}.

Section WithEnv.
Context (env : Env) (senv : SessionEnv).

Definition getLoggedInUser : M JsVal :=
  try_catch
    (_ ← createSessionClient env;
     result ← account_get senv;
     user ← UserActions.getUserInfo env (account_dollar_id result);
     parseStringify env user)
    (λ error,
       _ ← console_log error;
       mret VNull).

Definition createLinkToken (user : LinkUser) : M JsVal :=
  try_catch
    (let tokenParams :=
       {| client_user_id := link_dollar_id user;
          client_name := link_firstName user +:+ " " +:+ link_lastName user;
          products := ["auth"];
          language := "en";
          country_codes := ["US"] |} in
     link_token ← plaidClient_linkTokenCreate senv tokenParams;
     parseStringify env (VObj (<["linkToken" := VStr link_token]> ∅)))
    (λ error,
       _ ← console_log error;
       mret VUndefined).

End WithEnv.

End SessionActions.

Module HomePage.

(** [loggedIn?.name] *)
Definition optional_name (loggedIn : JsVal) : JsVal :=
  match loggedIn with
  | VObj o => default VUndefined (o !! "name")
  | _ => VUndefined
  end.

(** [a || b] *)
Definition or_else (a b : JsVal) : JsVal := if truthy a then a else b.

(** The two props of the page that depend on data: the [user] of the
    greeting header and the [user] of the right sidebar.  Every other prop
    is a constant of the source text. *)
Record HomeProps : Type := {
  headerBox_user : JsVal;
  rightSidebar_user : JsVal;
}.

(** [Home], the page that awaits [getLoggedInUser]. *)
Definition Home (env : Env) (senv : SessionActions.SessionEnv) : M HomeProps :=
  loggedIn ← SessionActions.getLoggedInUser env senv;
  mret {| headerBox_user := or_else (optional_name loggedIn) (VStr "Guest");
          rightSidebar_user := loggedIn |}.

End HomePage.

(** ** More ways to read a history, and more doubles *)

Module Observe.

(** The calls a read query may make. *)
Definition is_read_call (c : Call) : bool :=
  match c with
  | CreateAdminClient | DatabaseListDocuments _ _ _ | ConsoleLog _ => true
  | _ => false
  end.

(** The calls that reach the processor. *)
Definition is_post (e : Event) : bool :=
  match ev_call e with DwollaPost _ _ => true | _ => false end.

(** The object a call hands to the processor or to the store, if any. *)
Definition payload (c : Call) : option (gmap string JsVal) :=
  match c with
  | DwollaPost _ (VObj body) => Some body
  | DatabaseCreateDocument _ _ _ data => Some data
  | _ => None
  end.

Definition is_cookie_set (e : Event) : bool :=
  match ev_call e with CookiesSet _ _ _ => true | _ => false end.

Definition is_session_create (e : Event) : bool :=
  match ev_call e with AccountCreateEmailPasswordSession _ _ => true | _ => false end.

(** The Bank document [createBankAccount] submits for [props]. *)
Definition bank_document (props : UserActions.createBankAccountProps)
  : gmap string JsVal :=
  <["userId" := VStr (UserActions.userId props)]>
    (<["bankId" := VStr (UserActions.bankId props)]>
       (<["accountId" := VStr (UserActions.accountId props)]>
          (<["accessToken" := VStr (UserActions.accessToken props)]>
             (<["fundingSourceUrl" := UserActions.fundingSourceUrl props]>
                (<["shareableId" := UserActions.shareableId props]> ∅))))).

(** A run from [h] that only obtained the admin client, listed documents
    and logged, and so wrote no document. *)
Definition reads_only (h : History) (run : Completion JsVal * History) : Prop :=
  ∃ new,
    run.2 = h ++ new
    ∧ Forall (λ e, is_read_call (ev_call e) = true) new
    ∧ ∀ collectionId, persisted collectionId new = [].

(** [value.k1.k2...kn], [undefined] where a property is missing. *)
Fixpoint get_path (keys : list string) (value : JsVal) : JsVal :=
  match keys with
  | [] => value
  | k :: keys' =>
      match value with
      | VObj o => match o !! k with
                  | Some v => get_path keys' v
                  | None => VUndefined
                  end
      | _ => VUndefined
      end
  end.

End Observe.
Export Observe.

Module MoreDoubles.

(** [base] with another processor. *)
Definition with_processor (base : Env)
           (post : History → string → JsVal → Completion DwollaResponse) : Env :=
  {| DATABASE_ID := DATABASE_ID base;
     USER_COLLECTION_ID := USER_COLLECTION_ID base;
     BANK_COLLECTION_ID := BANK_COLLECTION_ID base;
     TRANSACTION_COLLECTION_ID := TRANSACTION_COLLECTION_ID base;
     utils_parseStringify := utils_parseStringify base;
     utils_extractCustomerIdFromUrl := utils_extractCustomerIdFromUrl base;
     utils_encryptId := utils_encryptId base;
     appwrite_createAdminClient := appwrite_createAdminClient base;
     appwrite_createSessionClient := appwrite_createSessionClient base;
     appwrite_ID_unique := appwrite_ID_unique base;
     appwrite_account_create := appwrite_account_create base;
     appwrite_account_createEmailPasswordSession :=
       appwrite_account_createEmailPasswordSession base;
     appwrite_account_deleteSession := appwrite_account_deleteSession base;
     appwrite_database_listDocuments := appwrite_database_listDocuments base;
     appwrite_database_createDocument := appwrite_database_createDocument base;
     next_cookies_set := next_cookies_set base;
     next_cookies_delete := next_cookies_delete base;
     next_revalidatePath := next_revalidatePath base;
     plaid_itemPublicTokenExchange := plaid_itemPublicTokenExchange base;
     plaid_accountsGet := plaid_accountsGet base;
     plaid_processorTokenCreate := plaid_processorTokenCreate base;
     dwolla_post := post |}.

(** [base] with another way to answer listings. *)
Definition with_listings (base : Env)
           (list : History → string → string → list Query → Completion DocumentList) : Env :=
  {| DATABASE_ID := DATABASE_ID base;
     USER_COLLECTION_ID := USER_COLLECTION_ID base;
     BANK_COLLECTION_ID := BANK_COLLECTION_ID base;
     TRANSACTION_COLLECTION_ID := TRANSACTION_COLLECTION_ID base;
     utils_parseStringify := utils_parseStringify base;
     utils_extractCustomerIdFromUrl := utils_extractCustomerIdFromUrl base;
     utils_encryptId := utils_encryptId base;
     appwrite_createAdminClient := appwrite_createAdminClient base;
     appwrite_createSessionClient := appwrite_createSessionClient base;
     appwrite_ID_unique := appwrite_ID_unique base;
     appwrite_account_create := appwrite_account_create base;
     appwrite_account_createEmailPasswordSession :=
       appwrite_account_createEmailPasswordSession base;
     appwrite_account_deleteSession := appwrite_account_deleteSession base;
     appwrite_database_listDocuments := list;
     appwrite_database_createDocument := appwrite_database_createDocument base;
     next_cookies_set := next_cookies_set base;
     next_cookies_delete := next_cookies_delete base;
     next_revalidatePath := next_revalidatePath base;
     plaid_itemPublicTokenExchange := plaid_itemPublicTokenExchange base;
     plaid_accountsGet := plaid_accountsGet base;
     plaid_processorTokenCreate := plaid_processorTokenCreate base;
     dwolla_post := dwolla_post base |}.

(** The processor accepts the customer but sends no [location] header. *)
Definition processor_without_location : Env :=
  with_processor (Double.env_of Double.healthy)
    (λ _ _ _, Normal {| location := None; body_links := VUndefined |}).

(** The store answers the listing by sender and fails the one by receiver. *)
Definition receiver_listing_down : Env :=
  with_listings (Double.env_of Double.healthy)
    (λ _ _ _ queries,
       match queries with
       | [QueryEqual attribute _] =>
           if String.eqb attribute "senderBankId"
           then Normal {| total := 1; documents := [Double.transfer_doc "t-1" "X" "Y"] |}
           else Double.down "listing unavailable"
       | _ => Double.down "listing unavailable"
       end).

(** A transfer from X to X is listed by both queries. *)
Definition self_transfer (_ : list Query) : DocumentList :=
  {| total := 1; documents := [Double.transfer_doc "t-9" "X" "X"] |}.

(** One page of one document out of thirty matches, for every listing. *)
Definition one_of_thirty (_ : list Query) : DocumentList :=
  {| total := 30; documents := [Double.transfer_doc "t-1" "X" "Y"] |}.

(** A User document with a name. *)
Definition named_user (_ : list Query) : DocumentList :=
  {| total := 1;
     documents := [Double.document "u-1" (<["name" := VStr "Ada Byron"]> ∅)] |}.

Definition session_env : SessionActions.SessionEnv :=
  {| SessionActions.appwrite_account_get := λ _,
       Normal {| account_dollar_id := "acct-1" |};
     SessionActions.plaid_linkTokenCreate := λ _ _, Normal "link-1" |}.

Definition bank_props : UserActions.createBankAccountProps :=
  {| UserActions.userId := "user-1";
     UserActions.bankId := "item-1";
     UserActions.accountId := "acc-1";
     UserActions.accessToken := "access-1";
     UserActions.fundingSourceUrl :=
       VStr "https://api.dwolla.test/customers/cust-1/funding-sources/r-1";
     UserActions.shareableId := VStr "enc:acc-1" |}.

End MoreDoubles.

(** * Properties *)

Import DwollaActions TransactionActions UserActions.

(** ** Running an action by hand *)

Ltac unfold_imports :=
  unfold parseStringify, extractCustomerIdFromUrl, encryptId,
    createAdminClient, createSessionClient, ID_unique, account_create,
    account_createEmailPasswordSession, account_deleteSession,
    database_listDocuments, database_createDocument, cookies_set,
    cookies_delete, revalidatePath, plaidClient_itemPublicTokenExchange,
    plaidClient_accountsGet, plaidClient_processorTokenCreate,
    dwollaClient_post, console_log, console_error.

Ltac unfold_monad :=
  unfold try_catch, mbind, M_bind, bind, mret, M_ret, ret, throw, pure, ask, call.

(** Histories are kept in the shape [h ++ [e1; ...; en]]. *)
Ltac norm_hist :=
  cbn [app completion_map];
  repeat (rewrite <- app_assoc; cbn [app completion_map]).

(** Take the next collaborator's answer from a hypothesis. *)
Ltac answer_with H := norm_hist; rewrite H; cbn [app completion_map].

(** ** [logoutAccount] *)

Section LogoutAccount.
Context (env : Env) (h : History).

(** C8, on the code: when the session client is obtained, the cookie is
    deleted and the session is revoked without a throw, [logoutAccount]
    falls off the end of its [try] block and yields [undefined], which is
    not the [null] its documentation promises. *)
Theorem logoutAccount_undefined_on_success :
  appwrite_createSessionClient env h = Normal () →
  next_cookies_delete env (h ++ [opened]) "appwrite-session" = Normal () →
  appwrite_account_deleteSession env (h ++ [opened; deleted]) "current" = Normal () →
  logoutAccount env h = (Normal VUndefined, h ++ [opened; deleted; revoked])
  ∧ (logoutAccount env h).1 ≠ Normal VNull.
Proof.
  intros Hopen Hdel Hrev. unfold opened, deleted, revoked in *.
  match goal with |- ?eq ∧ _ => assert eq as E end.
  { unfold logoutAccount. unfold_imports. unfold_monad.
    answer_with Hopen. answer_with Hdel. answer_with Hrev. by norm_hist. }
  split; [exact E | by rewrite E].
Qed.

(** The [catch] branch yields [null], for instance when there is no
    session to open a client for. *)
Lemma logoutAccount_null_without_session e :
  appwrite_createSessionClient env h = Throw e →
  logoutAccount env h = (Normal VNull, h ++ [Ev CreateSessionClient (Throw e)]).
Proof.
  intros Hopen. unfold logoutAccount. unfold_imports. unfold_monad.
  by answer_with Hopen.
Qed.

(** Nothing else is ever returned, and nothing is thrown. *)
Lemma logoutAccount_result :
  (logoutAccount env h).1 = Normal VUndefined ∨ (logoutAccount env h).1 = Normal VNull.
Proof.
  unfold logoutAccount. unfold_imports. unfold_monad.
  destruct (appwrite_createSessionClient env h); cbn; [|by right].
  destruct (next_cookies_delete env _ _); cbn; [|by right].
  destruct (appwrite_account_deleteSession env _ _); cbn; [by left|by right].
Qed.

End LogoutAccount.

Lemma logoutAccount_undefined_on_success_witness :
  logoutAccount (Double.env_of Double.healthy) [] =
    (Normal VUndefined,
     [Ev CreateSessionClient (Normal RUnit);
      Ev (CookiesDelete "appwrite-session") (Normal RUnit);
      Ev (AccountDeleteSession "current") (Normal RUnit)])
  ∧ (logoutAccount (Double.env_of Double.healthy) []).1 ≠ Normal VNull.
Proof.
  apply (logoutAccount_undefined_on_success (Double.env_of Double.healthy) []);
    reflexivity.
Defined.

(** Without a session the documented [null] comes back. *)
Example logoutAccount_signed_out :
  logoutAccount (Double.env_of Double.signed_out) [] =
    (Normal VNull, [Ev CreateSessionClient (Throw (ServiceError "No session"))]).
Proof. reflexivity. Qed.

(** ** The read queries *)

Section ReadQueries.
Context (env : Env) (h : History).

(** C9: [getUserInfo] hands the first document of the listing to
    [parseStringify] and checks nothing else.  With no match that first
    element is [undefined], and the action yields [undefined] (whether
    [parseStringify] passes [undefined] through or throws on it, in which
    case the [catch] branch yields [undefined] too); with several matches
    it yields the first one, whatever the total says. *)
Theorem getUserInfo_first_document (userId : string) (user : DocumentList) :
  appwrite_createAdminClient env h = Normal () →
  appwrite_database_listDocuments env (h ++ [connected])
    (DATABASE_ID env) (USER_COLLECTION_ID env)
    [QueryEqual "userId" (VArr [VStr userId])] = Normal user →
  (documents user = [] →
   (∀ v, utils_parseStringify env VUndefined = Normal v → v = VUndefined) →
   (getUserInfo env userId h).1 = Normal VUndefined)
  ∧ (∀ d rest, documents user = d :: rest →
     utils_parseStringify env d = Normal d →
     (getUserInfo env userId h).1 = Normal d).
Proof.
  intros Hadmin Hlist. unfold connected in *.
  unfold getUserInfo. unfold_imports. unfold_monad.
  answer_with Hadmin. answer_with Hlist.
  split.
  - intros -> Hcopy. cbn.
    destruct (utils_parseStringify env VUndefined) as [v|e] eqn:Hparse; cbn; [|done].
    by rewrite (Hcopy v).
  - intros d rest -> Hparse. cbn. by rewrite Hparse.
Qed.

(** C3: [getBankByAccountId] yields [null] unless the listing's total is
    exactly 1, and then the listed document. *)
Theorem getBankByAccountId_exactly_one (accountId : string) (bank : DocumentList) :
  appwrite_createAdminClient env h = Normal () →
  appwrite_database_listDocuments env (h ++ [connected])
    (DATABASE_ID env) (BANK_COLLECTION_ID env)
    [QueryEqual "accountId" (VArr [VStr accountId])] = Normal bank →
  (total bank = 0 ∨ 2 ≤ total bank →
   (getBankByAccountId env accountId h).1 = Normal VNull)
  ∧ (total bank = 1 →
     ∀ d, documents bank = [d] →
     utils_parseStringify env d = Normal d →
     (getBankByAccountId env accountId h).1 = Normal d).
Proof.
  intros Hadmin Hlist. unfold connected in *.
  unfold getBankByAccountId. unfold_imports. unfold_monad.
  answer_with Hadmin. answer_with Hlist.
  split.
  - intros Htotal. destruct (Z.eqb_spec (total bank) 1) as [E|_]; [lia|done].
  - intros -> d -> Hparse. cbn. by rewrite Hparse.
Qed.

(** A failed listing is neither case: the action yields [undefined]. *)
Lemma getBankByAccountId_listing_fails (accountId : string) e :
  appwrite_createAdminClient env h = Normal () →
  appwrite_database_listDocuments env (h ++ [connected])
    (DATABASE_ID env) (BANK_COLLECTION_ID env)
    [QueryEqual "accountId" (VArr [VStr accountId])] = Throw e →
  (getBankByAccountId env accountId h).1 = Normal VUndefined.
Proof.
  intros Hadmin Hlist. unfold connected in *.
  unfold getBankByAccountId. unfold_imports. unfold_monad.
  answer_with Hadmin. by answer_with Hlist.
Qed.

End ReadQueries.

Lemma getUserInfo_first_document_witness :
  (getUserInfo (Double.env_of Double.healthy) "acct-1" []).1 = Normal VUndefined
  ∧ (getUserInfo
       (Double.env_of (Double.stocked
          (λ _, {| total := 2; documents := [Double.user_doc_1; Double.user_doc_2] |})))
       "acct-1" []).1 = Normal Double.user_doc_1.
Proof.
  split.
  - destruct (getUserInfo_first_document (Double.env_of Double.healthy) [] "acct-1"
                Double.no_documents eq_refl eq_refl) as [Hnone _].
    apply Hnone; [reflexivity|]. intros v Hv. discriminate Hv.
  - destruct (getUserInfo_first_document
                (Double.env_of (Double.stocked
                   (λ _, {| total := 2;
                            documents := [Double.user_doc_1; Double.user_doc_2] |})))
                [] "acct-1" _ eq_refl eq_refl) as [_ Hfirst].
    eapply Hfirst; reflexivity.
Defined.

Lemma getBankByAccountId_exactly_one_witness :
  (getBankByAccountId (Double.env_of Double.healthy) "acc-1" []).1 = Normal VNull
  ∧ (getBankByAccountId
       (Double.env_of (Double.stocked
          (λ _, {| total := 2; documents := [Double.bank_1; Double.bank_2] |})))
       "acc-1" []).1 = Normal VNull
  ∧ (getBankByAccountId
       (Double.env_of (Double.stocked (λ _, {| total := 1; documents := [Double.bank_1] |})))
       "acc-1" []).1 = Normal Double.bank_1.
Proof.
  split; [|split].
  - destruct (getBankByAccountId_exactly_one (Double.env_of Double.healthy) [] "acc-1"
                Double.no_documents eq_refl eq_refl) as [Hnull _].
    apply Hnull. left. reflexivity.
  - destruct (getBankByAccountId_exactly_one
                (Double.env_of (Double.stocked
                   (λ _, {| total := 2; documents := [Double.bank_1; Double.bank_2] |})))
                [] "acc-1" _ eq_refl eq_refl) as [Hnull _].
    apply Hnull. right. cbn. lia.
  - destruct (getBankByAccountId_exactly_one
                (Double.env_of (Double.stocked
                   (λ _, {| total := 1; documents := [Double.bank_1] |})))
                [] "acc-1" _ eq_refl eq_refl) as [_ Hone].
    eapply Hone; reflexivity.
Defined.

(** ** The transaction actions *)

(** [persisted] looks at each event on its own. *)
Lemma persisted_app (collectionId : string) (h1 h2 : History) :
  persisted collectionId (h1 ++ h2) = persisted collectionId h1 ++ persisted collectionId h2.
Proof. unfold persisted. apply omap_app. Qed.

Section Transactions.
Context (env : Env) (h : History).

(** C4, as the code has it: the result of [getTransactionsByBankId]
    carries the sum of the two listings' totals and the concatenation of
    their documents.  The action passes no limit and compares nothing: the
    length of the result's documents is the result's total when each
    listing holds as many documents as its own total says. *)
Theorem getTransactionsByBankId_sum_and_concat
        (bankId : string) (senderTransactions receiverTransactions : DocumentList) :
  let asSender := DatabaseListDocuments (DATABASE_ID env) (TRANSACTION_COLLECTION_ID env)
                    [QueryEqual "senderBankId" (VStr bankId)] in
  let transactions :=
    <["total" := VNum (total senderTransactions + total receiverTransactions)]>
      (<["documents" :=
           VArr (documents senderTransactions ++ documents receiverTransactions)]> ∅) in
  appwrite_createAdminClient env h = Normal () →
  appwrite_database_listDocuments env (h ++ [connected])
    (DATABASE_ID env) (TRANSACTION_COLLECTION_ID env)
    [QueryEqual "senderBankId" (VStr bankId)] = Normal senderTransactions →
  appwrite_database_listDocuments env
    (h ++ [connected; Ev asSender (Normal (RDocumentList senderTransactions))])
    (DATABASE_ID env) (TRANSACTION_COLLECTION_ID env)
    [QueryEqual "receiverBankId" (VStr bankId)] = Normal receiverTransactions →
  utils_parseStringify env (VObj transactions) = Normal (VObj transactions) →
  ∃ result listed,
    (getTransactionsByBankId env bankId h).1 = Normal result
    ∧ get_path ["total"] result
      = VNum (total senderTransactions + total receiverTransactions)
    ∧ get_path ["documents"] result = VArr listed
    ∧ listed = documents senderTransactions ++ documents receiverTransactions
    ∧ (Z.of_nat (length (documents senderTransactions)) = total senderTransactions →
       Z.of_nat (length (documents receiverTransactions)) = total receiverTransactions →
       get_path ["total"] result = VNum (Z.of_nat (length listed))).
Proof.
  intros asSender transactions Hadmin Hsender Hreceiver Hparse. unfold connected in *.
  subst asSender.
  exists (VObj transactions),
    (documents senderTransactions ++ documents receiverTransactions).
  assert (get_path ["total"] (VObj transactions)
          = VNum (total senderTransactions + total receiverTransactions)) as Htotal.
  { subst transactions. cbn. by rewrite lookup_insert_eq. }
  split; [|split; [|split; [|split]]].
  - unfold getTransactionsByBankId. unfold_imports. unfold_monad.
    answer_with Hadmin. answer_with Hsender. answer_with Hreceiver.
    fold transactions. by rewrite Hparse.
  - exact Htotal.
  - subst transactions. cbn. rewrite lookup_insert_ne; [|done]. by rewrite lookup_insert_eq.
  - reflexivity.
  - intros Hs Hr. rewrite Htotal. f_equal. rewrite length_app. lia.
Qed.

(** The document [createTransaction] submits: the caller's properties over
    the two defaults. *)
Lemma createTransaction_submits (transaction : gmap string JsVal) :
  appwrite_createAdminClient env h = Normal () →
  ∃ outcome rest,
    (createTransaction env transaction h).2 =
      h ++ [connected;
            Ev (DatabaseCreateDocument (DATABASE_ID env) (TRANSACTION_COLLECTION_ID env)
                  (appwrite_ID_unique env (h ++ [connected]))
                  (spread (<["channel" := VStr "Online"]>
                           (<["category" := VStr "Transfer"]> ∅)) transaction))
               outcome] ++ rest
    ∧ persisted (TRANSACTION_COLLECTION_ID env) rest = [].
Proof.
  intros Hadmin. unfold connected in *.
  unfold createTransaction. unfold_imports. unfold_monad.
  answer_with Hadmin.
  destruct (appwrite_database_createDocument env _ _ _ _ _) as [d|e]; norm_hist.
  - destruct (utils_parseStringify env d) as [v|e]; norm_hist.
    + by eexists _, [].
    + by eexists _, [_].
  - by eexists _, [_].
Qed.

(** C7, as the code has it: when the store acknowledges the document,
    [createTransaction] has persisted exactly one Transaction, which holds
    every property of the caller's object and, for a caller's object
    without a [channel] or [category] of its own, the channel "Online" and
    the category "Transfer". *)
Theorem createTransaction_defaults (transaction : gmap string JsVal) (created : JsVal) :
  let data := spread (<["channel" := VStr "Online"]>
                      (<["category" := VStr "Transfer"]> ∅)) transaction in
  appwrite_createAdminClient env h = Normal () →
  appwrite_database_createDocument env (h ++ [connected])
    (DATABASE_ID env) (TRANSACTION_COLLECTION_ID env)
    (appwrite_ID_unique env (h ++ [connected])) data = Normal created →
  transaction !! "channel" = None →
  transaction !! "category" = None →
  ∃ new,
    (createTransaction env transaction h).2 = h ++ new
    ∧ persisted (TRANSACTION_COLLECTION_ID env) new = [data]
    ∧ data !! "channel" = Some (VStr "Online")
    ∧ data !! "category" = Some (VStr "Transfer")
    ∧ ∀ k v, transaction !! k = Some v → data !! k = Some v.
Proof.
  intros data Hadmin Hcreate Hchannel Hcategory.
  destruct (createTransaction_submits transaction Hadmin) as (outcome & rest & Htrace & Hrest).
  unfold connected in *.
  eexists. split; [exact Htrace|].
  assert (outcome = Normal (RDocument created)) as ->.
  { revert Htrace. unfold createTransaction. unfold_imports. unfold_monad.
    answer_with Hadmin. fold data. answer_with Hcreate.
    destruct (utils_parseStringify env created); norm_hist;
      intros Heq%app_inv_head; by simplify_eq. }
  split; [|split; [|split]].
  - change (?a :: ?b :: ?l ++ rest) with ([a; b] ++ rest).
    rewrite persisted_app, Hrest, app_nil_r. cbn.
    by rewrite String.eqb_refl.
  - unfold data, spread. rewrite lookup_union_r; [|done]. by rewrite lookup_insert_eq.
  - unfold data, spread. rewrite lookup_union_r; [|done].
    rewrite lookup_insert_ne; [|done]. by rewrite lookup_insert_eq.
  - intros k v Hk. unfold data, spread. by apply lookup_union_Some_l.
Qed.

End Transactions.

Lemma getTransactionsByBankId_sum_and_concat_witness :
  ∃ result listed,
    (getTransactionsByBankId (Double.env_of (Double.stocked Double.transfers_of_X)) "X" []).1
    = Normal result
    ∧ get_path ["total"] result = VNum 3
    ∧ get_path ["documents"] result = VArr listed
    ∧ listed = [Double.transfer_doc "t-1" "X" "Y"; Double.transfer_doc "t-2" "X" "Y";
                Double.transfer_doc "t-3" "Y" "X"]
    ∧ get_path ["total"] result = VNum (Z.of_nat (length listed)).
Proof.
  destruct (getTransactionsByBankId_sum_and_concat
              (Double.env_of (Double.stocked Double.transfers_of_X)) [] "X"
              _ _ eq_refl eq_refl eq_refl eq_refl)
    as (result & listed & Hresult & Htotal & Hdocuments & Hlisted & Hlength).
  exists result, listed.
  split; [exact Hresult|]. split; [exact Htotal|]. split; [exact Hdocuments|].
  split; [exact Hlisted|]. apply Hlength; reflexivity.
Defined.

(** C4, as stated, fails on a store that returns one page of the matches
    together with the full count: with one document and a total of 30 for
    each listing, the result has a total of 60 and two documents. *)
Lemma getTransactionsByBankId_length_below_total :
  ∃ result listed,
    (getTransactionsByBankId (Double.env_of (Double.stocked MoreDoubles.one_of_thirty))
       "X" []).1 = Normal result
    ∧ get_path ["total"] result = VNum 60
    ∧ get_path ["documents"] result = VArr listed
    ∧ length listed = 2%nat
    ∧ Z.of_nat (length listed) ≠ 60.
Proof.
  eexists _, _. split; [reflexivity|]. split; [reflexivity|]. split; [reflexivity|].
  split; [reflexivity|]. discriminate.
Qed.

(** C7, as stated, fails for a caller's object that brings a [channel] of
    its own: the spread comes after the two defaults, so the caller's value
    is the one persisted. *)
Lemma createTransaction_channel_overridden :
  ∃ data,
    persisted "transactions"
      (createTransaction (Double.env_of Double.healthy) Double.offline_transfer []).2
    = [data]
    ∧ data !! "channel" = Some (VStr "Offline")
    ∧ data !! "channel" ≠ Some (VStr "Online").
Proof.
  exists (spread (<["channel" := VStr "Online"]> (<["category" := VStr "Transfer"]> ∅))
                 Double.offline_transfer).
  split; [reflexivity|]. split; [reflexivity|]. discriminate.
Qed.

Lemma createTransaction_defaults_witness :
  ∃ new,
    (createTransaction (Double.env_of Double.healthy) Double.plain_transfer []).2 = new
    ∧ ∃ data,
        persisted "transactions" new = [data]
        ∧ data !! "channel" = Some (VStr "Online")
        ∧ data !! "category" = Some (VStr "Transfer")
        ∧ data !! "senderBankId" = Some (VStr "X")
        ∧ data !! "receiverBankId" = Some (VStr "Y")
        ∧ data !! "amount" = Some (VNum 25)
        ∧ data !! "currency" = Some (VStr "USD").
Proof.
  destruct (createTransaction_defaults (Double.env_of Double.healthy) []
              Double.plain_transfer _ eq_refl eq_refl eq_refl eq_refl)
    as (new & Htrace & Hpersisted & Hchannel & Hcategory & Hmerged).
  exists new. split; [exact Htrace|].
  eexists. split; [exact Hpersisted|].
  split; [exact Hchannel|]. split; [exact Hcategory|].
  repeat split; apply Hmerged; reflexivity.
Defined.

(** ** The Dwolla actions *)

Lemma funding_sources_path (options : CreateFundingSourceOptions) :
  is_funding_sources_path (funding_source_path options) = true.
Proof.
  unfold funding_source_path, is_funding_sources_path. cbn.
  by destruct (customerId options +:+ "/funding-sources").
Qed.

#[local] Arguments is_funding_sources_path : simpl never.
#[local] Arguments funding_source_path : simpl never.
#[local] Arguments funding_source_body : simpl never.

Lemma truthy_header (l : option string) :
  truthy (header l) = true ↔ ∃ url, l = Some url ∧ url ≠ "".
Proof.
  destruct l as [s|]; cbn.
  - destruct (String.eqb_spec s ""); cbn; split; try done.
    + intros (url & [= <-] & Hne). done.
    + intros _. by exists s.
  - split; [done|]. by intros (url & [=] & _).
Qed.

Section Dwolla.
Context (env : Env).

Lemma createFundingSource_registered options h res :
  dwolla_post env h (funding_source_path options) (funding_source_body options)
  = Normal res →
  createFundingSource env options h =
    (Normal (header (location res)),
     h ++ [Ev (DwollaPost (funding_source_path options) (funding_source_body options))
             (Normal (RDwolla res))]).
Proof.
  intros Hpost. unfold createFundingSource. unfold_imports. unfold_monad.
  unfold funding_source_path, funding_source_body in Hpost. by rewrite Hpost.
Qed.

Lemma createFundingSource_failed options h e :
  dwolla_post env h (funding_source_path options) (funding_source_body options)
  = Throw e →
  createFundingSource env options h =
    (Normal VUndefined,
     h ++ [Ev (DwollaPost (funding_source_path options) (funding_source_body options))
             (Throw e);
           Ev (ConsoleError "Creating a Funding Source Failed: " e) (Normal RUnit)]).
Proof.
  intros Hpost. unfold createFundingSource. unfold_imports. unfold_monad.
  unfold funding_source_path, funding_source_body in Hpost. rewrite Hpost.
  by norm_hist.
Qed.

(** [createOnDemandAuthorization] never throws: it yields the links, or
    [undefined] after logging. *)
Lemma createOnDemandAuthorization_outcome h :
  let post := DwollaPost "on-demand-authorizations" VUndefined in
  match dwolla_post env h "on-demand-authorizations" VUndefined with
  | Normal res =>
      createOnDemandAuthorization env h =
        (Normal (body_links res), h ++ [Ev post (Normal (RDwolla res))])
  | Throw e =>
      createOnDemandAuthorization env h =
        (Normal VUndefined,
         h ++ [Ev post (Throw e);
               Ev (ConsoleError "Creating an On Demand Authorization Failed: " e)
                  (Normal RUnit)])
  end.
Proof.
  unfold createOnDemandAuthorization. unfold_imports. unfold_monad.
  destruct (dwolla_post env h _ _); [done|by norm_hist].
Qed.

(** [createFundingSource] never throws either, so the [catch] branch of
    [addFundingSource] is never taken: once the authorization has
    returned, the result is that of the registration. *)
Lemma addFundingSource_after_authorization
      (params : AddFundingSourceParams) (h h1 : History) (dwollaAuthLinks : JsVal) :
  createOnDemandAuthorization env h = (Normal dwollaAuthLinks, h1) →
  addFundingSource env params h =
    createFundingSource env
      {| customerId := dwollaCustomerId params;
         fundingSourceName := bankName params;
         plaidToken := processorToken params;
         _links := dwollaAuthLinks |} h1.
Proof.
  intros E. unfold addFundingSource at 1. unfold try_catch, mbind, M_bind, bind.
  rewrite E.
  destruct (createFundingSource env _ h1) as [[v|e] h2] eqn:Hreg; [done|].
  exfalso. revert Hreg. unfold createFundingSource. unfold_imports. unfold_monad.
  by destruct (dwolla_post env h1 _ _).
Qed.

(** C5, as the code has it: [addFundingSource] first runs
    [createOnDemandAuthorization], which always returns, and then runs
    [createFundingSource] on the customer id, the bank name, the processor
    token and whatever the authorization returned.  Its result is that of
    the registration alone: the [location] header of the answer, or
    [undefined] when the registration call throws. *)
Theorem addFundingSource_composition (params : AddFundingSourceParams) (h : History) :
  ∃ dwollaAuthLinks outcome logged,
    let h1 := h ++ Ev (DwollaPost "on-demand-authorizations" VUndefined) outcome :: logged in
    let fundingSourceOptions :=
      {| customerId := dwollaCustomerId params;
         fundingSourceName := bankName params;
         plaidToken := processorToken params;
         _links := dwollaAuthLinks |} in
    let register := DwollaPost (funding_source_path fundingSourceOptions)
                               (funding_source_body fundingSourceOptions) in
    createOnDemandAuthorization env h = (Normal dwollaAuthLinks, h1)
    ∧ addFundingSource env params h = createFundingSource env fundingSourceOptions h1
    ∧ (∀ res,
         dwolla_post env h1 (funding_source_path fundingSourceOptions)
           (funding_source_body fundingSourceOptions) = Normal res →
         addFundingSource env params h =
           (Normal (header (location res)), h1 ++ [Ev register (Normal (RDwolla res))]))
    ∧ (∀ e,
         dwolla_post env h1 (funding_source_path fundingSourceOptions)
           (funding_source_body fundingSourceOptions) = Throw e →
         addFundingSource env params h =
           (Normal VUndefined,
            h1 ++ [Ev register (Throw e);
                   Ev (ConsoleError "Creating a Funding Source Failed: " e)
                      (Normal RUnit)])).
Proof.
  pose proof (createOnDemandAuthorization_outcome h) as Hauth. cbn zeta in Hauth.
  destruct (dwolla_post env h "on-demand-authorizations" VUndefined) as [res|e].
  - exists (body_links res), (Normal (RDwolla res)), []. cbn zeta.
    split; [exact Hauth|].
    split; [by apply addFundingSource_after_authorization|].
    split.
    + intros r Hpost. rewrite (addFundingSource_after_authorization _ _ _ _ Hauth).
      by apply createFundingSource_registered.
    + intros x Hpost. rewrite (addFundingSource_after_authorization _ _ _ _ Hauth).
      by apply createFundingSource_failed.
  - exists VUndefined, (Throw e),
      [Ev (ConsoleError "Creating an On Demand Authorization Failed: " e) (Normal RUnit)].
    cbn zeta.
    split; [exact Hauth|].
    split; [by apply addFundingSource_after_authorization|].
    split.
    + intros r Hpost. rewrite (addFundingSource_after_authorization _ _ _ _ Hauth).
      by apply createFundingSource_registered.
    + intros x Hpost. rewrite (addFundingSource_after_authorization _ _ _ _ Hauth).
      by apply createFundingSource_failed.
Qed.

End Dwolla.

(** C5, as stated, fails when the authorization call throws and the
    registration call succeeds: the failure is logged and dropped, and
    [addFundingSource] yields the funding source URL, not an absent result. *)
Lemma addFundingSource_authorization_failure_dropped :
  let env := Double.env_of Double.authorization_failing in
  dwolla_post env [] "on-demand-authorizations" VUndefined
  = Throw (ServiceError "authorization unavailable")
  ∧ (createOnDemandAuthorization env []).1 = Normal VUndefined
  ∧ (addFundingSource env Double.funding_request []).1
    = Normal (VStr "https://api.dwolla.test/customers/cust-1/funding-sources/r-1")
  ∧ (addFundingSource env Double.funding_request []).1 ≠ Normal VUndefined.
Proof. cbv zeta. split; [reflexivity|]. split; [reflexivity|]. split; [reflexivity|discriminate]. Qed.

(** ** The linking workflow *)

Section Linking.
Context (env : Env).

(** What the workflow needs to know of [addFundingSource]: it returns, it
    only talks to the processor, a failed registration shows in a falsy
    result, and a truthy result is the non-empty URL of a registration. *)
Lemma addFundingSource_summary (params : AddFundingSourceParams) (h : History) :
  ∃ v ext,
    addFundingSource env params h = (Normal v, h ++ ext)
    ∧ (∀ e, e ∈ ext → step_of (ev_call e) = Some 4%nat ∨ step_of (ev_call e) = None)
    ∧ (∀ e k, e ∈ ext → failed_step e = Some k → k = 4%nat ∧ truthy v = false)
    ∧ (truthy v = true →
       ∃ url e, v = VStr url ∧ url ≠ "" ∧ e ∈ ext ∧ registered_funding_source url e).
Proof.
  pose proof (createOnDemandAuthorization_outcome env h) as Hauth. cbn zeta in Hauth.
  set (options links := {| customerId := dwollaCustomerId params;
                           fundingSourceName := bankName params;
                           plaidToken := processorToken params;
                           _links := links |}).
  assert (∃ links outcome logged,
            createOnDemandAuthorization env h
            = (Normal links,
               h ++ Ev (DwollaPost "on-demand-authorizations" VUndefined) outcome :: logged)
            ∧ ∀ e, e ∈ logged → ∃ l x, e = Ev (ConsoleError l x) (Normal RUnit))
    as (links & outcome & logged & E & Hlogged).
  { destruct (dwolla_post env h _ _) as [res|x].
    - exists (body_links res), (Normal (RDwolla res)), []. split; [done|]. set_solver.
    - eexists VUndefined, (Throw x), [_]. split; [done|].
      intros e ->%list_elem_of_singleton. by eexists _, _. }
  clear Hauth.
  rewrite (addFundingSource_after_authorization env params _ _ _ E). fold (options links).
  destruct (dwolla_post env
              (h ++ Ev (DwollaPost "on-demand-authorizations" VUndefined) outcome :: logged)
              (funding_source_path (options links)) (funding_source_body (options links)))
    as [res|x] eqn:Hpost.
  - eexists _, _.
    split; [rewrite (createFundingSource_registered env _ _ _ Hpost); by norm_hist|].
    split; [|split].
    + intros e He. set_unfold. destruct_or!; simplify_eq/=; [by left| |by left].
      destruct (Hlogged e) as (l & x & ->); [done|by right].
    + intros e k He Hk. set_unfold. destruct_or!; simplify_eq/=.
      * by destruct (Hlogged e) as (l & x & ->).
      * rewrite funding_sources_path in Hk.
        destruct (truthy (header (location res))); by simplify_eq.
    + intros (url & Hurl & Hne)%truthy_header.
      eexists url, _. rewrite Hurl. split; [done|]. split; [done|].
      split; last first.
      { eexists _, _, _. split; [done|]. split; [apply funding_sources_path|done]. }
      apply elem_of_cons. right. apply elem_of_app. right.
      by apply list_elem_of_singleton.
  - eexists _, _.
    split; [rewrite (createFundingSource_failed env _ _ _ Hpost); by norm_hist|].
    split; [|split].
    + intros e He. set_unfold. destruct_or!; simplify_eq/=; [by left| |by left|by right].
      destruct (Hlogged e) as (l & y & ->); [done|by right].
    + intros e k He Hk. set_unfold. destruct_or!; simplify_eq/=.
      * by destruct (Hlogged e) as (l & y & ->).
      * rewrite funding_sources_path in Hk. by simplify_eq.
    + done.
Qed.

(** And of [createBankAccount]: it returns, and only talks to the store. *)
Lemma createBankAccount_summary (props : createBankAccountProps) (h : History) :
  ∃ v ext,
    createBankAccount env props h = (Normal v, h ++ ext)
    ∧ (∀ e, e ∈ ext → step_of (ev_call e) = Some 5%nat)
    ∧ (∀ e k, e ∈ ext → failed_step e = Some k → k = 5%nat).
Proof.
  unfold createBankAccount. unfold_imports. unfold_monad.
  destruct (appwrite_createAdminClient env h) as [[]|x]; norm_hist.
  - destruct (appwrite_database_createDocument env _ _ _ _ _) as [d|x]; norm_hist.
    + destruct (utils_parseStringify env d) as [v|x];
        (eexists _, _; split; [done|]);
        (split; [intros e He|intros e k He Hk]);
        set_unfold; destruct_or!; by simplify_eq/=.
    + eexists _, _; split; [done|].
      split; [intros e He|intros e k He Hk];
        set_unfold; destruct_or!; by simplify_eq/=.
  - eexists _, _; split; [done|].
    split; [intros e He|intros e k He Hk];
      set_unfold; destruct_or!; by simplify_eq/=.
Qed.

(** C1, as the code has it: a call of the Bank-record persistence step
    occurs only after [addFundingSource], run for the user's customer id,
    has returned a non-empty URL; and when one of the steps before the
    persistence (token exchange, accounts and first account, processor
    token, funding source) fails, no call of a later step is made. *)
Theorem exchangePublicToken_gate_and_abort (props : exchangePublicTokenProps) (h : History) :
  ∃ new,
    (exchangePublicToken env props h).2 = h ++ new
    ∧ (∀ e, e ∈ new → step_of (ev_call e) = Some 5%nat →
         ∃ params url before registration after,
           addFundingSource env params (h ++ before)
           = (Normal (VStr url), h ++ before ++ registration)
           ∧ dwollaCustomerId params = user_dwollaCustomerId (user props)
           ∧ url ≠ ""
           ∧ new = before ++ registration ++ after
           ∧ e ∈ after
           ∧ ∀ e', e' ∈ before ++ registration → step_of (ev_call e') ≠ Some 5%nat)
    ∧ (∀ e k, e ∈ new → failed_step e = Some k → (k ≤ 4)%nat →
         ∀ e' s, e' ∈ new → step_of (ev_call e') = Some s → (s ≤ k)%nat).
Proof.
  unfold exchangePublicToken. unfold_imports. unfold_monad.
  destruct (plaid_itemPublicTokenExchange env h _) as [response|x]; norm_hist.
  2:{ eexists. split; [done|]. split.
      - intros e He. set_unfold. destruct_or!; by simplify_eq/=.
      - intros e k He Hk _ e' s He' Hs. set_unfold. destruct_or!; simplify_eq/=; lia. }
  destruct (plaid_accountsGet env _ _) as [[|accountData rest]|x]; norm_hist.
  1,3:(eexists; split; [done|]; split;
       [intros e He; set_unfold; destruct_or!; by simplify_eq/=
       |intros e k He Hk _ e' s He' Hs; set_unfold; destruct_or!; simplify_eq/=; lia]).
  destruct (plaid_processorTokenCreate env _ _ _ _) as [processorToken|x]; norm_hist.
  2:{ eexists; split; [done|]; split;
       [intros e He; set_unfold; destruct_or!; by simplify_eq/=
       |intros e k He Hk _ e' s He' Hs; set_unfold; destruct_or!; simplify_eq/=; lia]. }
  match goal with |- context [addFundingSource env ?p ?h3] =>
    destruct (addFundingSource_summary p h3) as (v & ext4 & E4 & Hstep4 & Hfail4 & Hurl4);
    rewrite E4 end.
  destruct (truthy v) eqn:Hv; cbn [negb]; norm_hist.
  2:{ eexists. split; [done|]. split.
      - intros e He Hs. exfalso. set_unfold. destruct_or!; simplify_eq/=.
        destruct (Hstep4 e) as [?|?]; [done|congruence..].
      - intros e k He Hk _ e' s He' Hs.
        assert (k = 4%nat) as ->.
        { clear He' Hs. set_unfold. destruct_or!; simplify_eq/=. by destruct (Hfail4 e k). }
        clear He Hk. set_unfold. destruct_or!; simplify_eq/=; try lia.
        match goal with He' : e' ∈ ext4 |- _ =>
          destruct (Hstep4 e' He') as [E|E]; rewrite E in Hs; simplify_eq; lia end. }
  destruct (Hurl4 eq_refl) as (url & e4 & -> & Hne & He4 & Hreg). clear Hurl4.
  rewrite <- app_assoc in E4. cbn [app] in E4.
  assert (∀ e k, e ∈ ext4 → failed_step e = Some k → False) as Hfine4.
  { intros e k He Hk. by destruct (Hfail4 e k). }
  assert (∀ e, e ∈ ext4 → step_of (ev_call e) ≠ Some 5%nat
                          ∧ ∀ s, step_of (ev_call e) = Some s → (s ≤ 4)%nat) as Hnot5.
  { intros e He. destruct (Hstep4 e He) as [E|E]; rewrite E; split; try done;
      intros s' ?; simplify_eq; lia. }
  destruct (utils_encryptId env _) as [shareableId|x]; norm_hist.
  2:{ eexists. split; [done|]. split.
      - intros e He Hs. exfalso. set_unfold. destruct_or!; simplify_eq/=.
        by destruct (Hnot5 e).
      - intros e k He Hk _. exfalso. set_unfold. destruct_or!; simplify_eq/=. eauto. }
  match goal with |- context [createBankAccount env ?p ?h5] =>
    destruct (createBankAccount_summary p h5) as (v5 & ext5 & E5 & Hstep5 & Hfail5);
    rewrite E5 end.
  norm_hist.
  assert (∀ e k, e ∈ ext5 → failed_step e = Some k → (k ≤ 4)%nat → False) as Hfine5.
  { intros e k He Hk Hle. rewrite (Hfail5 e k He Hk) in Hle. lia. }
  assert (∀ tail,
            (∀ e, e ∈ tail → step_of (ev_call e) ≠ Some 5%nat) →
            (∀ e k, e ∈ tail → failed_step e = Some k → (k ≤ 4)%nat → False) →
            ∃ new,
              h ++ Ev (PlaidItemPublicTokenExchange (publicToken props))
                     (Normal (RTokenExchange response))
                :: Ev (PlaidAccountsGet (access_token response))
                     (Normal (RAccounts (accountData :: rest)))
                :: Ev (PlaidProcessorTokenCreate (access_token response)
                         (account_id accountData) "dwolla")
                     (Normal (RProcessorToken processorToken))
                :: ext4 ++ ext5 ++ tail = h ++ new
              ∧ (∀ e, e ∈ new → step_of (ev_call e) = Some 5%nat →
                   ∃ params url before registration after,
                     addFundingSource env params (h ++ before)
                     = (Normal (VStr url), h ++ before ++ registration)
                     ∧ dwollaCustomerId params = user_dwollaCustomerId (user props)
                     ∧ url ≠ ""
                     ∧ new = before ++ registration ++ after
                     ∧ e ∈ after
                     ∧ ∀ e', e' ∈ before ++ registration →
                             step_of (ev_call e') ≠ Some 5%nat)
              ∧ (∀ e k, e ∈ new → failed_step e = Some k → (k ≤ 4)%nat →
                   ∀ e' s, e' ∈ new → step_of (ev_call e') = Some s → (s ≤ k)%nat))
    as Hpersisting.
  { intros tail Htail5 Htailfine. eexists. split; [done|]. split.
    - intros e He Hs. eexists _, url, [_; _; _], ext4, (ext5 ++ tail).
      split; [exact E4|]. split; [done|]. split; [done|]. split; [done|]. split.
      + set_unfold. destruct_or!; simplify_eq/=; [|by left|by right].
        by destruct (Hnot5 e).
      + clear He Hs. intros e' He'. set_unfold. destruct_or!; simplify_eq/=; try done.
        by destruct (Hnot5 e').
    - intros e k He Hk Hle. exfalso.
      set_unfold. destruct_or!; simplify_eq/=; eauto. }
  destruct (next_revalidatePath env _ _) as [[]|x]; norm_hist.
  - destruct (utils_parseStringify env _) as [complete|x]; norm_hist; cbn [snd].
    + apply Hpersisting.
      * intros e He. set_unfold. destruct_or!; by simplify_eq/=.
      * intros e k He Hk. set_unfold. destruct_or!; by simplify_eq/=.
    + apply Hpersisting.
      * intros e He. set_unfold. destruct_or!; by simplify_eq/=.
      * intros e k He Hk. set_unfold. destruct_or!; by simplify_eq/=.
  - cbn [snd]. apply Hpersisting.
    + intros e He. set_unfold. destruct_or!; by simplify_eq/=.
    + intros e k He Hk Hle. set_unfold. destruct_or!; simplify_eq/=. lia.
Qed.


(** [createBankAccount] swallows a failed write: it yields [undefined]
    and logs nothing. *)
Lemma createBankAccount_swallows_failure (props : createBankAccountProps) (h : History) x :
  let data :=
    <["userId" := VStr (userId props)]>
      (<["bankId" := VStr (bankId props)]>
         (<["accountId" := VStr (accountId props)]>
            (<["accessToken" := VStr (accessToken props)]>
               (<["fundingSourceUrl" := fundingSourceUrl props]>
                  (<["shareableId" := shareableId props]> ∅))))) in
  let documentId := appwrite_ID_unique env (h ++ [connected]) in
  appwrite_createAdminClient env h = Normal () →
  appwrite_database_createDocument env (h ++ [connected])
    (DATABASE_ID env) (BANK_COLLECTION_ID env) documentId data = Throw x →
  createBankAccount env props h =
    (Normal VUndefined,
     h ++ [connected;
           Ev (DatabaseCreateDocument (DATABASE_ID env) (BANK_COLLECTION_ID env)
                 documentId data) (Throw x)]).
Proof.
  intros data documentId Hadmin Hcreate. unfold connected in *.
  unfold createBankAccount. unfold_imports. unfold_monad.
  answer_with Hadmin. fold data. fold documentId. by answer_with Hcreate.
Qed.

(** C6: with an empty accounts list, reading the first account's id
    throws inside the [try] block; the handler logs the error and the
    action yields [undefined].  Nothing is thrown to the caller and no
    later call is made. *)
Theorem exchangePublicToken_no_accounts
        (props : exchangePublicTokenProps) (h : History) (response : TokenExchange) :
  let exchanged := Ev (PlaidItemPublicTokenExchange (publicToken props))
                      (Normal (RTokenExchange response)) in
  plaid_itemPublicTokenExchange env h (publicToken props) = Normal response →
  plaid_accountsGet env (h ++ [exchanged]) (access_token response) = Normal [] →
  exchangePublicToken env props h =
    (Normal VUndefined,
     h ++ [exchanged;
           Ev (PlaidAccountsGet (access_token response)) (Normal (RAccounts []));
           Ev (ConsoleError "An error occurred while creating exchanging token:"
                 (TypeError "Cannot read properties of undefined (reading 'account_id')"))
              (Normal RUnit)]).
Proof.
  intros exchanged Hexchange Haccounts. subst exchanged.
  unfold exchangePublicToken. unfold_imports. unfold_monad.
  answer_with Hexchange. answer_with Haccounts. by norm_hist.
Qed.

End Linking.

Lemma exchangePublicToken_no_accounts_witness :
  exchangePublicToken (Double.env_of Double.without_accounts) Double.link_request [] =
    (Normal VUndefined,
     [Ev (PlaidItemPublicTokenExchange "public-1")
         (Normal (RTokenExchange {| access_token := "access-1"; item_id := "item-1" |}));
      Ev (PlaidAccountsGet "access-1") (Normal (RAccounts []));
      Ev (ConsoleError "An error occurred while creating exchanging token:"
            (TypeError "Cannot read properties of undefined (reading 'account_id')"))
         (Normal RUnit)]).
Proof.
  apply (exchangePublicToken_no_accounts (Double.env_of Double.without_accounts)
           Double.link_request []); reflexivity.
Defined.

(** C1, as stated, fails at the persistence step: when the store refuses
    the Bank record, [createBankAccount] swallows the failure and the
    workflow goes on to the revalidation and reports completion. *)
Lemma exchangePublicToken_continues_after_failed_persistence :
  let run := exchangePublicToken (Double.env_of Double.store_down) Double.link_request [] in
  ∃ e e',
    run.2 !! 6%nat = Some e
    ∧ run.2 !! 7%nat = Some e'
    ∧ (∃ documentId data x,
         e = Ev (DatabaseCreateDocument "db" "banks" documentId data) (Throw x))
    ∧ failed_step e = Some 5%nat
    ∧ e' = Ev (RevalidatePath "/") (Normal RUnit)
    ∧ step_of (ev_call e') = Some 6%nat.
Proof.
  cbv zeta. eexists _, _. split; [reflexivity|]. split; [reflexivity|].
  split; [by eexists _, _, _|]. split; [reflexivity|]. split; reflexivity.
Qed.

Lemma exchangePublicToken_gate_and_abort_witness :
  ∃ new,
    (exchangePublicToken (Double.env_of Double.healthy) Double.link_request []).2 = [] ++ new
    ∧ (∃ e, e ∈ new ∧ step_of (ev_call e) = Some 5%nat)
    ∧ ∃ new',
        (exchangePublicToken (Double.env_of Double.without_accounts)
           Double.link_request []).2 = [] ++ new'
        ∧ (∃ e, e ∈ new' ∧ failed_step e = Some 2%nat)
        ∧ ∀ e' s, e' ∈ new' → step_of (ev_call e') = Some s → (s ≤ 2)%nat.
Proof.
  destruct (exchangePublicToken_gate_and_abort (Double.env_of Double.healthy)
              Double.link_request []) as (new & Htrace & _ & _).
  exists new. split; [exact Htrace|]. split.
  { cbn in Htrace. rewrite <- Htrace. exists connected. split; [|reflexivity].
    do 5 apply list_elem_of_further. apply list_elem_of_here. }
  destruct (exchangePublicToken_gate_and_abort (Double.env_of Double.without_accounts)
              Double.link_request []) as (new' & Htrace' & _ & Habort).
  exists new'. split; [exact Htrace'|].
  assert (Ev (PlaidAccountsGet "access-1") (Normal (RAccounts [])) ∈ new') as Hin.
  { cbn in Htrace'. rewrite <- Htrace'. apply list_elem_of_further, list_elem_of_here. }
  split; [eexists; split; [exact Hin|reflexivity]|].
  apply (Habort _ 2%nat Hin eq_refl). lia.
Defined.

(** C10: there is a run of [exchangePublicToken] that reports completion
    although no Bank record was persisted: the store refuses the document,
    [createBankAccount] yields [undefined] without a word, and the workflow
    never looks at what [createBankAccount] returned. *)
Theorem exchangePublicToken_complete_without_bank_record :
  ∃ env props bank before x,
    let run := exchangePublicToken env props [] in
    run.1 = Normal (VObj (<["publicTokenExchange" := VStr "complete"]> ∅))
    ∧ persisted (BANK_COLLECTION_ID env) run.2 = []
    ∧ createBankAccount env bank before
      = (Normal VUndefined,
         before ++ [connected;
                    Ev (DatabaseCreateDocument (DATABASE_ID env) (BANK_COLLECTION_ID env)
                          "unique()"
                          (<["userId" := VStr (userId bank)]>
                             (<["bankId" := VStr (bankId bank)]>
                                (<["accountId" := VStr (accountId bank)]>
                                   (<["accessToken" := VStr (accessToken bank)]>
                                      (<["fundingSourceUrl" := fundingSourceUrl bank]>
                                         (<["shareableId" := shareableId bank]> ∅)))))))
                       (Throw x)])
    ∧ run.2 = before ++ [connected;
                         Ev (DatabaseCreateDocument (DATABASE_ID env) (BANK_COLLECTION_ID env)
                               "unique()"
                               (<["userId" := VStr (userId bank)]>
                                  (<["bankId" := VStr (bankId bank)]>
                                     (<["accountId" := VStr (accountId bank)]>
                                        (<["accessToken" := VStr (accessToken bank)]>
                                           (<["fundingSourceUrl" := fundingSourceUrl bank]>
                                              (<["shareableId" := shareableId bank]> ∅)))))))
                            (Throw x);
                         Ev (RevalidatePath "/") (Normal RUnit)].
Proof.
  exists (Double.env_of Double.store_down), Double.link_request,
    {| userId := "user-1";
       bankId := "item-1";
       accountId := "acc-1";
       accessToken := "access-1";
       fundingSourceUrl :=
         VStr "https://api.dwolla.test/customers/cust-1/funding-sources/r-1";
       shareableId := VStr "enc:acc-1" |},
    (take 5 (exchangePublicToken (Double.env_of Double.store_down)
               Double.link_request []).2),
    (ServiceError "document store unavailable").
  cbv zeta. split; [reflexivity|]. split; [reflexivity|]. split; reflexivity.
Qed.

(** ** Sign-up *)

Section SignUp.
Context (env : Env).

(** C2: when [signUp] returns a defined value, its [try] block ran to its
    end: one account was created with the identity service, one customer
    with the processor, one User document was persisted, whose
    [dwollaCustomerId] is what [extractCustomerIdFromUrl] makes of the URL
    the processor returned for the customer, and setting the session
    cookie was the last call. *)
Theorem signUp_success (p : SignUpParams) (h : History) (v : JsVal) :
  (signUp env p h).1 = Normal v →
  v ≠ VUndefined →
  ∃ accountId newUserAccount res url dwollaCustomerId documentId newUser session new,
    let data :=
      <["dwollaCustomerUrl" := VStr url]>
        (<["dwollaCustomerId" := dwollaCustomerId]>
           (<["userId" := VStr (account_dollar_id newUserAccount)]> (userData p))) in
    (signUp env p h).2 = h ++ new
    ∧ new =
      [ connected;
        Ev (AccountCreate accountId (email p) (password p)
              (firstName p +:+ " " +:+ lastName p))
           (Normal (RAccount (Some newUserAccount)));
        Ev (DwollaPost "customers" (VObj (<["type" := VStr "personal"]> (userData p))))
           (Normal (RDwolla res));
        Ev (DatabaseCreateDocument (DATABASE_ID env) (USER_COLLECTION_ID env)
              documentId data)
           (Normal (RDocument newUser));
        Ev (AccountCreateEmailPasswordSession (email p) (password p))
           (Normal (RSession session));
        Ev (CookiesSet "appwrite-session" (secret session) session_cookie_options)
           (Normal RUnit) ]
    ∧ length (List.filter is_account_create new) = 1%nat
    ∧ length (List.filter is_customer_create new) = 1%nat
    ∧ persisted (USER_COLLECTION_ID env) new = [data]
    ∧ location res = Some url
    ∧ url ≠ ""
    ∧ utils_extractCustomerIdFromUrl env (VStr url) = Normal dwollaCustomerId
    ∧ data !! "dwollaCustomerId" = Some dwollaCustomerId
    ∧ last new = Some (Ev (CookiesSet "appwrite-session" (secret session)
                             session_cookie_options) (Normal RUnit))
    ∧ utils_parseStringify env newUser = Normal v.
Proof.
  unfold signUp, createDwollaCustomer. unfold_imports. unfold_monad.
  destruct (appwrite_createAdminClient env h) as [[]|x]; norm_hist;
    [|by intros [= <-]].
  destruct (appwrite_account_create env _ _ _ _ _) as [[newUserAccount|]|x]; norm_hist;
    [|by intros [= <-]..].
  destruct (dwolla_post env _ _ _) as [res|x]; norm_hist; [|by intros [= <-]].
  destruct (truthy (header (location res))) eqn:Hurl; cbn [negb]; norm_hist;
    [|by intros [= <-]].
  apply truthy_header in Hurl as (url & Hlocation & Hne). rewrite Hlocation. cbn [header].
  destruct (utils_extractCustomerIdFromUrl env (VStr url)) as [dwollaCustomerId|x] eqn:Hid;
    norm_hist; [|by intros [= <-]].
  destruct (appwrite_database_createDocument env _ _ _ _ _) as [newUser|x]; norm_hist;
    [|by intros [= <-]].
  destruct (appwrite_account_createEmailPasswordSession env _ _ _) as [session|x];
    norm_hist; [|by intros [= <-]].
  destruct (next_cookies_set env _ _ _ _) as [[]|x]; norm_hist; [|by intros [= <-]].
  destruct (utils_parseStringify env newUser) as [v'|x] eqn:Hparse; norm_hist;
    [|by intros [= <-]].
  cbn [fst snd]. intros [= ->] _.
  eexists _, newUserAccount, res, url, dwollaCustomerId, _, newUser, session, _.
  cbv zeta. split; [reflexivity|]. split; [reflexivity|].
  split; [reflexivity|]. split; [reflexivity|].
  split; [cbn; by rewrite String.eqb_refl|].
  split; [done|]. split; [done|]. split; [done|].
  split; [|done].
  rewrite lookup_insert_ne; [|done]. by rewrite lookup_insert_eq.
Qed.

End SignUp.

Lemma signUp_success_witness :
  ∃ new data url id,
    (signUp (Double.env_of Double.healthy) Double.sign_up_request []).2 = new
    ∧ persisted "users" new = [data]
    ∧ Double.last_path_segment (VStr url) = Normal id
    ∧ data !! "dwollaCustomerId" = Some id.
Proof.
  destruct (signUp_success (Double.env_of Double.healthy) Double.sign_up_request [] _ eq_refl)
    as (accountId & account & res & url & id & documentId & newUser & session & new
        & Htrace & _ & _ & _ & Hpersisted & _ & _ & Hid & Hread & _);
    [discriminate|].
  exists new. eexists _, url, id.
  split; [exact Htrace|]. split; [exact Hpersisted|]. split; [exact Hid|exact Hread].
Defined.

(** The scenario of the specification, run on the double: the customer is
    created, the User document carries the id the URL ends in, and the
    session cookie is set last. *)
Example signUp_scenario :
  let run := signUp (Double.env_of Double.healthy) Double.sign_up_request [] in
  persisted "users" run.2 =
    [ <["dwollaCustomerUrl" := VStr "https://api.dwolla.test/customers/r-1"]>
        (<["dwollaCustomerId" := VStr "r-1"]>
           (<["userId" := VStr "acct-1"]> (userData Double.sign_up_request))) ]
  ∧ last run.2 = Some (Ev (CookiesSet "appwrite-session" "s3cr3t" session_cookie_options)
                          (Normal RUnit))
  ∧ length run.2 = 6%nat.
Proof. cbv zeta. split; [reflexivity|]. split; reflexivity. Qed.

(** * More properties of the actions *)

Import DwollaClient SessionActions HomePage.

(** Follow every way a run can go, innermost call first. *)
Ltac each_run :=
  repeat match goal with
         | |- context [match ?x with _ => _ end] =>
             lazymatch x with
             | context [match _ with _ => _ end] => fail
             | _ => destruct x eqn:?; cbn [fst snd app completion_map negb]
             end
         end.

Ltac unfold_actions :=
  do 3 unfold getUserInfo, signIn, signUp, logoutAccount, createBankAccount,
    exchangePublicToken, getBanks, getBank, getBankByAccountId,
    createTransaction, getTransactionsByBankId, createTransfer,
    addFundingSource, createDwollaCustomer, createOnDemandAuthorization,
    createFundingSource.

(** ** No action throws *)

Section NeverThrow.
Context (env : Env) (h : History).

(** X1: no user action ever throws to its caller: whatever the
    collaborators answer, the action ends normally (with a value,
    [undefined] or [null]). *)
Theorem user_actions_never_throw :
  (∀ userId, ∃ v, (getUserInfo env userId h).1 = Normal v)
  ∧ (∀ email password, ∃ v, (signIn env email password h).1 = Normal v)
  ∧ (∀ p, ∃ v, (signUp env p h).1 = Normal v)
  ∧ (∃ v, (logoutAccount env h).1 = Normal v)
  ∧ (∀ props, ∃ v, (createBankAccount env props h).1 = Normal v)
  ∧ (∀ props, ∃ v, (exchangePublicToken env props h).1 = Normal v)
  ∧ (∀ userId, ∃ v, (getBanks env userId h).1 = Normal v)
  ∧ (∀ documentId, ∃ v, (getBank env documentId h).1 = Normal v)
  ∧ (∀ accountId, ∃ v, (getBankByAccountId env accountId h).1 = Normal v).
Proof.
  repeat split; intros; unfold_actions; unfold_imports; unfold_monad;
    cbn [fst snd app completion_map negb]; each_run; eauto.
Qed.

(** X2: the same for the transaction actions and the Dwolla actions. *)
Theorem transaction_and_dwolla_actions_never_throw :
  (∀ transaction, ∃ v, (createTransaction env transaction h).1 = Normal v)
  ∧ (∀ bankId, ∃ v, (getTransactionsByBankId env bankId h).1 = Normal v)
  ∧ (∀ options, ∃ v, (createFundingSource env options h).1 = Normal v)
  ∧ (∃ v, (createOnDemandAuthorization env h).1 = Normal v)
  ∧ (∀ newCustomer, ∃ v, (createDwollaCustomer env newCustomer h).1 = Normal v)
  ∧ (∀ params, ∃ v, (createTransfer env params h).1 = Normal v)
  ∧ (∀ params, ∃ v, (addFundingSource env params h).1 = Normal v).
Proof.
  repeat split; intros; unfold_actions; unfold_imports; unfold_monad;
    cbn [fst snd app completion_map negb]; each_run; eauto.
Qed.

End NeverThrow.

(** ** What the read queries leave alone *)

Section ReadOnly.
Context (env : Env) (h : History).

Ltac read_only :=
  unfold reads_only; unfold_actions; unfold_imports; unfold_monad;
  cbn [fst snd app completion_map negb]; each_run; norm_hist; cbn [snd];
  (eexists; split; [reflexivity|]; split; [repeat constructor|done]).


(** X3: the five read queries only obtain the admin client, list
    documents and log: they write no document, set no cookie and reach
    neither the aggregator nor the processor. *)
Theorem read_queries_read_only :
  (∀ userId, reads_only h (getUserInfo env userId h))
  ∧ (∀ userId, reads_only h (getBanks env userId h))
  ∧ (∀ documentId, reads_only h (getBank env documentId h))
  ∧ (∀ accountId, reads_only h (getBankByAccountId env accountId h))
  ∧ (∀ bankId, reads_only h (getTransactionsByBankId env bankId h)).
Proof. repeat split; intros; read_only. Qed.

End ReadOnly.

(** ** Sign-in and the session cookie *)

Section SignIn.
Context (env : Env) (h : History).

(** X4: [signIn] sets a cookie only right after the identity service has
    created the session, and then it is the cookie [appwrite-session] with
    that session's secret; a failed session creation sets no cookie. *)
Theorem signIn_cookie_needs_session (email password : string) :
  ∃ new,
    (signIn env email password h).2 = h ++ new
    ∧ ∀ e, e ∈ new → is_cookie_set e = true →
        ∃ session after,
          new = connected
                :: Ev (AccountCreateEmailPasswordSession email password)
                      (Normal (RSession session))
                :: e :: after
          ∧ ev_call e = CookiesSet "appwrite-session" (secret session)
                          session_cookie_options
          ∧ List.filter is_cookie_set after = [].
Proof.
  unfold connected. unfold_actions. unfold_imports. unfold_monad.
  cbn [fst snd app completion_map negb]. each_run; norm_hist; cbn [snd];
    (eexists; split; [reflexivity|]);
    intros ev Hev Hcookie; set_unfold; destruct_or!; simplify_eq/=;
    by eexists _, _.
Qed.


End SignIn.


(** ** Sign-up: what is sent where, and what a failure leaves behind *)

Lemma userData_without_password (p : SignUpParams) : userData p !! "password" = None.
Proof.
  unfold userData. rewrite !lookup_insert_ne by done. apply lookup_delete_eq.
Qed.

Section SignUpMore.
Context (env : Env) (h : History).

(** X6: [signUp] hands the password to the identity service only: no
    object it posts to the processor or writes to the store has a
    [password] property, whatever else the sign-up form carried. *)
Theorem signUp_password_not_forwarded (p : SignUpParams) :
  ∃ new,
    (signUp env p h).2 = h ++ new
    ∧ ∀ e o, e ∈ new → payload (ev_call e) = Some o → o !! "password" = None.
Proof.
  pose proof (userData_without_password p) as Hnone.
  unfold_actions. unfold_imports. unfold_monad.
  cbn [fst snd app completion_map negb]. each_run; norm_hist; cbn [snd];
    (eexists; split; [reflexivity|]);
    intros ev o Hev Ho; set_unfold; destruct_or!; simplify_eq/=;
    by rewrite ?lookup_insert_ne by done.
Qed.

(** X7: when the processor yields no customer URL (the call throws, or
    its answer has no non-empty [location]), [signUp] yields [undefined]
    and stops: the account just created with the identity service stays,
    but no User document is written, no session is opened and no cookie is
    set. *)
Theorem signUp_without_customer_leaves_account (p : SignUpParams) (account : Account) :
  let accountId := appwrite_ID_unique env (h ++ [connected]) in
  let created := Ev (AccountCreate accountId (email p) (password p)
                       (firstName p +:+ " " +:+ lastName p))
                    (Normal (RAccount (Some account))) in
  appwrite_createAdminClient env h = Normal () →
  appwrite_account_create env (h ++ [connected]) accountId (email p) (password p)
    (firstName p +:+ " " +:+ lastName p) = Normal (Some account) →
  (∀ res, dwolla_post env (h ++ [connected; created]) "customers"
            (VObj (<["type" := VStr "personal"]> (userData p))) = Normal res →
          truthy (header (location res)) = false) →
  ∃ new,
    signUp env p h = (Normal VUndefined, h ++ new)
    ∧ created ∈ new
    ∧ persisted (USER_COLLECTION_ID env) new = []
    ∧ List.filter is_session_create new = []
    ∧ List.filter is_cookie_set new = []
    ∧ last new = Some (Ev (ConsoleError "Error" (ErrorObject "Error creating Dwolla customer"))
                          (Normal RUnit)).
Proof.
  intros accountId created Hadmin Haccount Hpost. subst accountId created.
  unfold connected in *.
  unfold signUp, createDwollaCustomer. unfold_imports. unfold_monad.
  answer_with Hadmin. answer_with Haccount. norm_hist.
  destruct (dwolla_post env _ _ _) as [res|x] eqn:Hanswer; norm_hist.
  - rewrite (Hpost res eq_refl). cbn [negb]. norm_hist.
    eexists. split; [reflexivity|]. split; [set_solver|done].
  - cbn [truthy negb]. norm_hist.
    eexists. split; [reflexivity|]. split; [set_solver|done].
Qed.

End SignUpMore.

Lemma signUp_without_customer_leaves_account_witness :
  ∃ new,
    signUp MoreDoubles.processor_without_location Double.sign_up_request []
    = (Normal VUndefined, new)
    ∧ Ev (AccountCreate "unique()" "a@b.com" "pw" "A B")
         (Normal (RAccount (Some {| account_dollar_id := "acct-1" |}))) ∈ new
    ∧ persisted "users" new = [].
Proof.
  destruct (signUp_without_customer_leaves_account
              MoreDoubles.processor_without_location [] Double.sign_up_request
              {| account_dollar_id := "acct-1" |} eq_refl eq_refl)
    as (new & Hrun & Hcreated & Hpersisted & _).
  { intros res [= <-]. reflexivity. }
  exists new. split; [exact Hrun|]. split; [exact Hcreated|exact Hpersisted].
Defined.

(** ** Bank records *)

Section BankRecords.
Context (env : Env).

(** What one call of [createBankAccount] writes when the store accepts. *)
Lemma createBankAccount_accepted props h created :
  appwrite_createAdminClient env h = Normal () →
  appwrite_database_createDocument env (h ++ [connected])
    (DATABASE_ID env) (BANK_COLLECTION_ID env)
    (appwrite_ID_unique env (h ++ [connected])) (bank_document props) = Normal created →
  (createBankAccount env props h).2 =
    h ++ [connected;
          Ev (DatabaseCreateDocument (DATABASE_ID env) (BANK_COLLECTION_ID env)
                (appwrite_ID_unique env (h ++ [connected])) (bank_document props))
             (Normal (RDocument created))].
Proof.
  intros Hadmin Hcreate. unfold connected, bank_document in *.
  unfold createBankAccount. unfold_imports. unfold_monad.
  answer_with Hadmin. answer_with Hcreate.
  by destruct (utils_parseStringify env created); norm_hist.
Qed.

(** X8: [createBankAccount] checks nothing before it writes: called twice
    with the same fields on a store that accepts both writes, it leaves two
    Bank documents with the same content. *)
Theorem createBankAccount_twice_persists_twice props h created created' :
  let h1 := (createBankAccount env props h).2 in
  appwrite_createAdminClient env h = Normal () →
  appwrite_database_createDocument env (h ++ [connected])
    (DATABASE_ID env) (BANK_COLLECTION_ID env)
    (appwrite_ID_unique env (h ++ [connected])) (bank_document props) = Normal created →
  appwrite_createAdminClient env h1 = Normal () →
  appwrite_database_createDocument env (h1 ++ [connected])
    (DATABASE_ID env) (BANK_COLLECTION_ID env)
    (appwrite_ID_unique env (h1 ++ [connected])) (bank_document props) = Normal created' →
  persisted (BANK_COLLECTION_ID env) (createBankAccount env props h1).2
  = persisted (BANK_COLLECTION_ID env) h ++ [bank_document props; bank_document props].
Proof.
  intros h1 Hadmin Hcreate Hadmin' Hcreate'.
  rewrite (createBankAccount_accepted props h1 created' Hadmin' Hcreate').
  subst h1. rewrite (createBankAccount_accepted props h created Hadmin Hcreate).
  rewrite !persisted_app. cbn. rewrite String.eqb_refl. by rewrite <- app_assoc.
Qed.

End BankRecords.

Lemma createBankAccount_twice_persists_twice_witness :
  persisted "banks"
    (createBankAccount (Double.env_of Double.healthy) MoreDoubles.bank_props
       (createBankAccount (Double.env_of Double.healthy) MoreDoubles.bank_props []).2).2
  = [bank_document MoreDoubles.bank_props; bank_document MoreDoubles.bank_props].
Proof.
  apply (createBankAccount_twice_persists_twice (Double.env_of Double.healthy)
           MoreDoubles.bank_props [] _ _ eq_refl eq_refl eq_refl eq_refl).
Defined.

(** Only a call of step 5 can persist a document. *)
Lemma persisted_none (collectionId : string) (l : History) :
  (∀ e, e ∈ l → step_of (ev_call e) ≠ Some 5%nat) →
  persisted collectionId l = [].
Proof.
  induction l as [|e l IH]; intros Hl; [done|].
  assert (persisted collectionId l = []) as Hrest.
  { apply IH. intros e' He'. apply Hl. by apply list_elem_of_further. }
  pose proof (Hl e (list_elem_of_here _ _)) as He.
  unfold persisted in *. cbn. rewrite Hrest.
  by destruct e as [[] []].
Qed.

Section LinkedBank.
Context (env : Env).

(** [createBankAccount] writes its document or nothing. *)
Lemma createBankAccount_writes (props : createBankAccountProps) (h : History) :
  ∃ v ext,
    createBankAccount env props h = (Normal v, h ++ ext)
    ∧ ∀ collectionId,
        persisted collectionId ext = []
        ∨ persisted collectionId ext = [bank_document props].
Proof.
  unfold createBankAccount, bank_document. unfold_imports. unfold_monad.
  cbn [fst snd app completion_map negb]. each_run; norm_hist;
    (eexists _, _; split; [reflexivity|]); intros c; cbn;
    try (by left); destruct (String.eqb _ c); first [by right|by left].
Qed.

(** X9: whatever Bank document the linking workflow persists is the only
    one it persists, and it joins the user's id, the item id and access
    token of the exchange, the id of the first account of the accounts
    answer, the URL the funding-source registration returned, and
    [encryptId] of that account id. *)
Theorem exchangePublicToken_bank_document (props : exchangePublicTokenProps) (h : History) :
  ∃ new,
    (exchangePublicToken env props h).2 = h ++ new
    ∧ ∀ data, data ∈ persisted (BANK_COLLECTION_ID env) new →
        persisted (BANK_COLLECTION_ID env) new = [data]
        ∧ ∃ response accountData rest url shareableId e,
            Ev (PlaidItemPublicTokenExchange (publicToken props))
               (Normal (RTokenExchange response)) ∈ new
            ∧ Ev (PlaidAccountsGet (access_token response))
                 (Normal (RAccounts (accountData :: rest))) ∈ new
            ∧ e ∈ new
            ∧ registered_funding_source url e
            ∧ utils_encryptId env (VStr (account_id accountData)) = Normal shareableId
            ∧ data = bank_document
                       {| userId := user_dollar_id (user props);
                          bankId := item_id response;
                          accountId := account_id accountData;
                          accessToken := access_token response;
                          fundingSourceUrl := VStr url;
                          shareableId := shareableId |}.
Proof.
  assert (∀ new : History,
            (∀ e, e ∈ new → step_of (ev_call e) ≠ Some 5%nat) →
            ∀ (P : gmap string JsVal → Prop) data,
              data ∈ persisted (BANK_COLLECTION_ID env) new → P data) as Hnothing.
  { intros new Hnew P data. rewrite (persisted_none _ new Hnew). by intros ?%elem_of_nil. }
  unfold exchangePublicToken. unfold_imports. unfold_monad.
  destruct (plaid_itemPublicTokenExchange env h _) as [response|x] eqn:Hexchange; norm_hist.
  2:{ eexists. split; [done|]. apply Hnothing.
      intros e He. set_unfold. destruct_or!; by simplify_eq/=. }
  destruct (plaid_accountsGet env _ _) as [[|accountData rest]|x]; norm_hist.
  1,3:(eexists; split; [done|]; apply Hnothing;
       intros e He; set_unfold; destruct_or!; by simplify_eq/=).
  destruct (plaid_processorTokenCreate env _ _ _ _) as [processorToken|x]; norm_hist.
  2:{ eexists; split; [done|]; apply Hnothing;
       intros e He; set_unfold; destruct_or!; by simplify_eq/=. }
  match goal with |- context [addFundingSource env ?p ?h3] =>
    destruct (addFundingSource_summary env p h3)
      as (v & ext4 & E4 & Hstep4 & _ & Hurl4);
    rewrite E4 end.
  assert (∀ e, e ∈ ext4 → step_of (ev_call e) ≠ Some 5%nat) as Hnot5.
  { intros e He. by destruct (Hstep4 e He) as [E|E]; rewrite E. }
  destruct (truthy v) eqn:Hv; cbn [negb]; norm_hist.
  2:{ eexists. split; [done|]. apply Hnothing.
      intros e He. set_unfold. destruct_or!; simplify_eq/=; auto. }
  destruct (Hurl4 eq_refl) as (url & e4 & -> & Hne & He4 & Hreg). clear Hurl4.
  destruct (utils_encryptId env _) as [shareable|x] eqn:Hencrypt; norm_hist.
  2:{ eexists. split; [done|]. apply Hnothing.
      intros e He. set_unfold. destruct_or!; simplify_eq/=; auto. }
  match goal with |- context [createBankAccount env ?p ?h5] =>
    destruct (createBankAccount_writes p h5) as (v5 & ext5 & E5 & Hwrites);
    rewrite E5 end.
  norm_hist.
  assert (∀ tail (result : Completion JsVal),
            (∀ e, e ∈ tail → step_of (ev_call e) ≠ Some 5%nat) →
            ∃ new,
              (result,
               h ++ Ev (PlaidItemPublicTokenExchange (publicToken props))
                      (Normal (RTokenExchange response))
                 :: Ev (PlaidAccountsGet (access_token response))
                      (Normal (RAccounts (accountData :: rest)))
                 :: Ev (PlaidProcessorTokenCreate (access_token response)
                          (account_id accountData) "dwolla")
                      (Normal (RProcessorToken processorToken))
                 :: ext4 ++ ext5 ++ tail).2 = h ++ new
              ∧ ∀ data, data ∈ persisted (BANK_COLLECTION_ID env) new →
                  persisted (BANK_COLLECTION_ID env) new = [data]
                  ∧ ∃ response accountData rest url shareableId e,
                      Ev (PlaidItemPublicTokenExchange (publicToken props))
                         (Normal (RTokenExchange response)) ∈ new
                      ∧ Ev (PlaidAccountsGet (access_token response))
                           (Normal (RAccounts (accountData :: rest))) ∈ new
                      ∧ e ∈ new
                      ∧ registered_funding_source url e
                      ∧ utils_encryptId env (VStr (account_id accountData))
                        = Normal shareableId
                      ∧ data = bank_document
                                 {| userId := user_dollar_id (user props);
                                    bankId := item_id response;
                                    accountId := account_id accountData;
                                    accessToken := access_token response;
                                    fundingSourceUrl := VStr url;
                                    shareableId := shareableId |}) as Hlinked.
  { intros tail result Htail. eexists. split; [reflexivity|].
    intros data.
    change (?a :: ?b :: ?c :: ext4 ++ ext5 ++ tail) with ([a; b; c] ++ ext4 ++ ext5 ++ tail).
    rewrite !persisted_app.
    rewrite (persisted_none _ ext4 Hnot5), (persisted_none _ tail Htail). cbn [app].
    rewrite app_nil_r.
    replace (persisted (BANK_COLLECTION_ID env) [_; _; _]) with (@nil (gmap string JsVal))
      by done.
    cbn [app].
    destruct (Hwrites (BANK_COLLECTION_ID env)) as [->| ->]; [by intros ?%elem_of_nil|].
    intros ->%list_elem_of_singleton. split; [done|].
    eexists response, accountData, rest, url, shareable, e4.
    split; [set_solver|]. split; [set_solver|]. split; [set_solver|].
    split; [done|]. split; [done|]. reflexivity. }
  destruct (next_revalidatePath env _ _) as [[]|x]; norm_hist.
  - destruct (utils_parseStringify env _) as [complete|x]; norm_hist.
    + apply Hlinked. intros e He. set_unfold. destruct_or!; by simplify_eq/=.
    + apply Hlinked. intros e He. set_unfold. destruct_or!; by simplify_eq/=.
  - apply Hlinked. intros e He. set_unfold. destruct_or!; by simplify_eq/=.
Qed.

End LinkedBank.

Lemma exchangePublicToken_bank_document_witness :
  persisted "banks"
    (exchangePublicToken (Double.env_of Double.healthy) Double.link_request []).2
  = [bank_document MoreDoubles.bank_props].
Proof.
  destruct (exchangePublicToken_bank_document (Double.env_of Double.healthy)
              Double.link_request []) as (new & Htrace & Hdocument).
  cbn [app] in Htrace. rewrite <- Htrace in Hdocument.
  destruct (Hdocument (bank_document MoreDoubles.bank_props)) as [Hpersisted _].
  - apply list_elem_of_here.
  - exact Hpersisted.
Defined.

(** ** Not found, three ways *)

Section NotFound.
Context (env : Env) (h : History).

(** X10: on a store that holds no matching document the three Bank
    queries end differently: [getBank] yields [undefined], [getBanks] an
    empty array, [getBankByAccountId] [null]. *)
Theorem bank_queries_not_found (id : string) :
  let empty := {| total := 0; documents := [] |} in
  appwrite_createAdminClient env h = Normal () →
  (∀ attribute,
     appwrite_database_listDocuments env (h ++ [connected])
       (DATABASE_ID env) (BANK_COLLECTION_ID env)
       [QueryEqual attribute (VArr [VStr id])] = Normal empty) →
  (∀ v, utils_parseStringify env VUndefined = Normal v → v = VUndefined) →
  utils_parseStringify env (VArr []) = Normal (VArr []) →
  (getBank env id h).1 = Normal VUndefined
  ∧ (getBanks env id h).1 = Normal (VArr [])
  ∧ (getBankByAccountId env id h).1 = Normal VNull.
Proof.
  intros empty Hadmin Hlist Hundefined Harray. unfold connected in *.
  split; [|split]; unfold_actions; unfold_imports; unfold_monad;
    answer_with Hadmin; rewrite Hlist; cbn.
  - destruct (utils_parseStringify env VUndefined) as [v|x] eqn:Hparse; cbn; [|done].
    by rewrite (Hundefined v).
  - by rewrite Harray.
  - done.
Qed.

End NotFound.

Lemma bank_queries_not_found_witness :
  (getBank (Double.env_of Double.healthy) "b-1" []).1 = Normal VUndefined
  ∧ (getBanks (Double.env_of Double.healthy) "b-1" []).1 = Normal (VArr [])
  ∧ (getBankByAccountId (Double.env_of Double.healthy) "b-1" []).1 = Normal VNull.
Proof.
  apply (bank_queries_not_found (Double.env_of Double.healthy) [] "b-1");
    try reflexivity.
  intros v Hv. discriminate Hv.
Defined.

(** ** Transactions of a bank *)

Section TransactionsMore.
Context (env : Env) (h : History).

(** X11: [getTransactionsByBankId] is all or nothing: when the listing by
    receiver fails after the listing by sender has answered, the sender's
    documents are dropped and the action yields [undefined], after logging
    the error once. *)
Theorem getTransactionsByBankId_all_or_nothing
        (bankId : string) (senderTransactions : DocumentList) (x : Exn) :
  let asSender := DatabaseListDocuments (DATABASE_ID env) (TRANSACTION_COLLECTION_ID env)
                    [QueryEqual "senderBankId" (VStr bankId)] in
  let asReceiver := DatabaseListDocuments (DATABASE_ID env) (TRANSACTION_COLLECTION_ID env)
                      [QueryEqual "receiverBankId" (VStr bankId)] in
  let listed := Ev asSender (Normal (RDocumentList senderTransactions)) in
  appwrite_createAdminClient env h = Normal () →
  appwrite_database_listDocuments env (h ++ [connected])
    (DATABASE_ID env) (TRANSACTION_COLLECTION_ID env)
    [QueryEqual "senderBankId" (VStr bankId)] = Normal senderTransactions →
  appwrite_database_listDocuments env (h ++ [connected; listed])
    (DATABASE_ID env) (TRANSACTION_COLLECTION_ID env)
    [QueryEqual "receiverBankId" (VStr bankId)] = Throw x →
  getTransactionsByBankId env bankId h =
    (Normal VUndefined,
     h ++ [connected; listed; Ev asReceiver (Throw x); Ev (ConsoleLog x) (Normal RUnit)]).
Proof.
  intros asSender asReceiver listed Hadmin Hsender Hreceiver.
  subst asSender asReceiver listed. unfold connected in *.
  unfold getTransactionsByBankId. unfold_imports. unfold_monad.
  answer_with Hadmin. answer_with Hsender. answer_with Hreceiver. by norm_hist.
Qed.

(** X12: nothing is removed from the concatenation: a document that both
    listings return (a transfer from a bank to itself) is in the result
    twice, once among the sender's documents and once after them. *)
Theorem getTransactionsByBankId_keeps_duplicates
        (bankId : string) (senderTransactions receiverTransactions : DocumentList)
        (d : JsVal) :
  let asSender := DatabaseListDocuments (DATABASE_ID env) (TRANSACTION_COLLECTION_ID env)
                    [QueryEqual "senderBankId" (VStr bankId)] in
  let transactions :=
    VObj (<["total" := VNum (total senderTransactions + total receiverTransactions)]>
          (<["documents" :=
               VArr (documents senderTransactions ++ documents receiverTransactions)]> ∅)) in
  appwrite_createAdminClient env h = Normal () →
  appwrite_database_listDocuments env (h ++ [connected])
    (DATABASE_ID env) (TRANSACTION_COLLECTION_ID env)
    [QueryEqual "senderBankId" (VStr bankId)] = Normal senderTransactions →
  appwrite_database_listDocuments env
    (h ++ [connected; Ev asSender (Normal (RDocumentList senderTransactions))])
    (DATABASE_ID env) (TRANSACTION_COLLECTION_ID env)
    [QueryEqual "receiverBankId" (VStr bankId)] = Normal receiverTransactions →
  utils_parseStringify env transactions = Normal transactions →
  d ∈ documents senderTransactions →
  d ∈ documents receiverTransactions →
  ∃ result listed i j,
    (getTransactionsByBankId env bankId h).1 = Normal result
    ∧ get_path ["documents"] result = VArr listed
    ∧ listed !! i = Some d
    ∧ listed !! j = Some d
    ∧ (i < length (documents senderTransactions) ≤ j)%nat.
Proof.
  intros asSender transactions Hadmin Hsender Hreceiver Hparse Hs Hr.
  subst asSender. unfold connected in *.
  apply list_elem_of_lookup in Hs as [i Hi]. apply list_elem_of_lookup in Hr as [j Hj].
  exists transactions, (documents senderTransactions ++ documents receiverTransactions),
    i, (length (documents senderTransactions) + j)%nat.
  split; [|split; [|split; [|split]]].
  - unfold getTransactionsByBankId. unfold_imports. unfold_monad.
    answer_with Hadmin. answer_with Hsender. answer_with Hreceiver.
    fold transactions. by rewrite Hparse.
  - subst transactions. cbn. rewrite lookup_insert_ne by done. by rewrite lookup_insert_eq.
  - by apply lookup_app_l_Some.
  - rewrite lookup_app_r by lia. by replace (_ + j - _)%nat with j by lia.
  - split; [by eapply lookup_lt_Some|lia].
Qed.

End TransactionsMore.

Lemma getTransactionsByBankId_all_or_nothing_witness :
  (getTransactionsByBankId MoreDoubles.receiver_listing_down "X" []).1 = Normal VUndefined
  ∧ length (getTransactionsByBankId MoreDoubles.receiver_listing_down "X" []).2 = 4%nat.
Proof.
  rewrite (getTransactionsByBankId_all_or_nothing MoreDoubles.receiver_listing_down []
             "X" _ _ eq_refl eq_refl eq_refl).
  split; reflexivity.
Defined.

Lemma getTransactionsByBankId_keeps_duplicates_witness :
  ∃ result listed,
    (getTransactionsByBankId
       (Double.env_of (Double.stocked MoreDoubles.self_transfer)) "X" []).1 = Normal result
    ∧ get_path ["documents"] result = VArr listed
    ∧ listed !! 0%nat = Some (Double.transfer_doc "t-9" "X" "X")
    ∧ listed !! 1%nat = Some (Double.transfer_doc "t-9" "X" "X").
Proof.
  destruct (getTransactionsByBankId_keeps_duplicates
              (Double.env_of (Double.stocked MoreDoubles.self_transfer)) [] "X"
              _ _ (Double.transfer_doc "t-9" "X" "X") eq_refl eq_refl eq_refl eq_refl)
    as (result & listed & i & j & Hresult & Hlisted & Hi & Hj & Hlt & Hle).
  - apply list_elem_of_here.
  - apply list_elem_of_here.
  - exists result, listed. split; [exact Hresult|]. split; [exact Hlisted|].
    cbn in Hlt, Hle.
    assert (i = 0%nat) as -> by lia.
    injection Hresult as <-. injection Hlisted as <-.
    split; [reflexivity|reflexivity].
Defined.

(** ** Transfers and the processor's environment *)

(** X13: [createTransfer] sends one request to [transfers], with the
    source and the destination under [_links], the amount under
    [amount.value] and the currency "USD" whatever the caller passes; it
    yields the [location] header of the answer, or [undefined] after
    logging when the call throws.  It never sends a second request. *)
Theorem createTransfer_request (env : Env) (params : TransferParams) (h : History) :
  ∃ body outcome logged,
    (createTransfer env params h).2 = h ++ Ev (DwollaPost "transfers" body) outcome :: logged
    ∧ get_path ["_links"; "source"; "href"] body = VStr (sourceFundingSourceUrl params)
    ∧ get_path ["_links"; "destination"; "href"] body
      = VStr (destinationFundingSourceUrl params)
    ∧ get_path ["amount"; "value"] body = amount params
    ∧ get_path ["amount"; "currency"] body = VStr "USD"
    ∧ List.filter is_post logged = []
    ∧ match outcome with
      | Normal (RDwolla res) =>
          (createTransfer env params h).1 = Normal (header (location res)) ∧ logged = []
      | Normal _ => False
      | Throw x =>
          (createTransfer env params h).1 = Normal VUndefined
          ∧ logged = [Ev (ConsoleError "Transfer fund failed: " x) (Normal RUnit)]
      end.
Proof.
  unfold createTransfer. unfold_imports. unfold_monad.
  destruct (dwolla_post env h _ _) as [res|x]; norm_hist;
    eexists _, _, _; (split; [reflexivity|]); by repeat split.
Qed.

(** X14: [getEnvironment] returns exactly when [DWOLLA_ENV] is the string
    "sandbox" or "production", and then returns that string; any other
    value, a different spelling or an unset variable, makes it throw. *)
Theorem getEnvironment_exact (DWOLLA_ENV : JsVal) (environment : string) :
  getEnvironment DWOLLA_ENV = Normal environment ↔
  DWOLLA_ENV = VStr environment ∧ (environment = "sandbox" ∨ environment = "production").
Proof.
  unfold getEnvironment. split.
  - destruct DWOLLA_ENV as [| | | |s| |]; try done.
    destruct (String.eqb_spec s "sandbox") as [->|_]; [intros [= <-]; by auto|].
    destruct (String.eqb_spec s "production") as [->|_]; [intros [= <-]; by auto|done].
  - by intros [-> [-> | ->]].
Qed.

Example getEnvironment_unset : ∃ e, getEnvironment VUndefined = Throw e.
Proof. by eexists. Qed.

Example getEnvironment_other_case : ∃ e, getEnvironment (VStr "Sandbox") = Throw e.
Proof. by eexists. Qed.

(** ** The logged-in user and the home page *)

Section LoggedIn.
Context (env : Env) (senv : SessionEnv) (h : History).

Lemma getLoggedInUser_returns : ∃ v h', getLoggedInUser env senv h = (Normal v, h').
Proof.
  unfold getLoggedInUser, account_get. unfold_actions. unfold_imports. unfold_monad.
  cbn [fst snd app completion_map negb]. each_run; by eexists _, _.
Qed.

(** X15: [getLoggedInUser] yields [null] when there is no session to open
    a client for and when the identity service does not return the
    account, in both cases without asking the store; otherwise it looks
    the user up by the account's [$id] and yields the document found. *)
Theorem getLoggedInUser_outcomes :
  (∀ x, appwrite_createSessionClient env h = Throw x →
        getLoggedInUser env senv h =
          (Normal VNull,
           h ++ [Ev CreateSessionClient (Throw x); Ev (ConsoleLog x) (Normal RUnit)]))
  ∧ (∀ x, appwrite_createSessionClient env h = Normal () →
          appwrite_account_get senv (h ++ [opened]) = Throw x →
          getLoggedInUser env senv h =
            (Normal VNull, h ++ [opened; Ev (ConsoleLog x) (Normal RUnit)]))
  ∧ (∀ account d,
       appwrite_createSessionClient env h = Normal () →
       appwrite_account_get senv (h ++ [opened]) = Normal account →
       (getUserInfo env (account_dollar_id account) (h ++ [opened])).1 = Normal d →
       utils_parseStringify env d = Normal d →
       (getLoggedInUser env senv h).1 = Normal d).
Proof.
  unfold opened. split; [|split].
  - intros x Hopen. unfold getLoggedInUser. unfold_imports. unfold_monad.
    answer_with Hopen. by norm_hist.
  - intros x Hopen Hget. unfold getLoggedInUser, account_get. unfold_imports. unfold_monad.
    answer_with Hopen. rewrite Hget. by norm_hist.
  - intros account d Hopen Hget Hlookup Hparse.
    unfold getLoggedInUser, account_get. unfold_imports. unfold_monad.
    answer_with Hopen. rewrite Hget.
    destruct (getUserInfo env _ _) as [r h'] eqn:Hrun. cbn [fst] in Hlookup. subst r.
    by rewrite Hparse.
Qed.

(** X16: the home page, which has no [try]/[catch] of its own, never
    fails: it passes the sidebar what [getLoggedInUser] yielded; it greets
    by the [name] of that user document whenever the document has a truthy
    [name], and by "Guest" in every other case (no session, no document, no
    name, an empty name). *)
Theorem Home_greeting :
  ∃ props,
    (Home env senv h).1 = Normal props
    ∧ (getLoggedInUser env senv h).1 = Normal (rightSidebar_user props)
    ∧ (∀ o n, rightSidebar_user props = VObj o →
              o !! "name" = Some n →
              truthy n = true →
              headerBox_user props = n)
    ∧ ((¬ ∃ o n, rightSidebar_user props = VObj o
                 ∧ o !! "name" = Some n
                 ∧ truthy n = true) →
       headerBox_user props = VStr "Guest").
Proof.
  destruct getLoggedInUser_returns as (v & h' & Hrun).
  unfold Home. unfold_monad. rewrite Hrun. cbn [fst].
  eexists. split; [reflexivity|]. split; [done|]. cbn.
  unfold or_else, optional_name. split.
  - intros o n -> Hname Hn. cbn. rewrite Hname. cbn. by rewrite Hn.
  - intros Hnone. destruct v as [| | | | | |o]; cbn; try done.
    destruct (o !! "name") as [n|] eqn:Hname; cbn; [|done].
    destruct (truthy n) eqn:Hn; [|done].
    destruct Hnone. by exists o, n.
Qed.

End LoggedIn.

(** Without a session the page greets a guest and has no user for the
    sidebar. *)
Example Home_signed_out :
  (Home (Double.env_of Double.signed_out) MoreDoubles.session_env []).1
  = Normal {| headerBox_user := VStr "Guest"; rightSidebar_user := VNull |}.
Proof. reflexivity. Qed.

Section SessionNeverThrow.
Context (env : Env) (senv : SessionEnv) (h : History).

(** X17: [getLoggedInUser] and [createLinkToken] never throw either. *)
Theorem session_actions_never_throw :
  (∃ v, (getLoggedInUser env senv h).1 = Normal v)
  ∧ (∀ user, ∃ v, (createLinkToken env senv user h).1 = Normal v).
Proof.
  split; intros;
    unfold getLoggedInUser, createLinkToken, account_get, plaidClient_linkTokenCreate;
    unfold_actions; unfold_imports; unfold_monad;
    cbn [fst snd app completion_map negb]; each_run; eauto.
Qed.

End SessionNeverThrow.

(** ** What a reported completion stands for *)

Section Completion.
Context (env : Env).

(** [createBankAccount] starts by asking for the admin client. *)
Lemma createBankAccount_starts (props : createBankAccountProps) (h : History) :
  ∃ outcome others v,
    createBankAccount env props h = (Normal v, h ++ Ev CreateAdminClient outcome :: others).
Proof.
  unfold createBankAccount. unfold_imports. unfold_monad.
  cbn [fst snd app completion_map negb]. each_run; norm_hist; by eexists _, _, _.
Qed.

(** X18: when the linking workflow returns a defined value, a funding
    source was registered under a non-empty URL, the persistence of the
    Bank record was attempted, and the revalidation was the last call and
    went through; the value is what [parseStringify] made of
    [{publicTokenExchange: "complete"}]. *)
Theorem exchangePublicToken_defined_result
        (props : exchangePublicTokenProps) (h : History) (v : JsVal) :
  (exchangePublicToken env props h).1 = Normal v →
  v ≠ VUndefined →
  ∃ new url registration attempt,
    (exchangePublicToken env props h).2 = h ++ new
    ∧ registration ∈ new
    ∧ registered_funding_source url registration
    ∧ url ≠ ""
    ∧ attempt ∈ new
    ∧ step_of (ev_call attempt) = Some 5%nat
    ∧ last new = Some (Ev (RevalidatePath "/") (Normal RUnit))
    ∧ utils_parseStringify env (VObj (<["publicTokenExchange" := VStr "complete"]> ∅))
      = Normal v.
Proof.
  unfold exchangePublicToken. unfold_imports. unfold_monad.
  destruct (plaid_itemPublicTokenExchange env h _) as [response|x]; norm_hist;
    [|by intros [= <-]].
  destruct (plaid_accountsGet env _ _) as [[|accountData rest]|x]; norm_hist;
    [by intros [= <-]| |by intros [= <-]].
  destruct (plaid_processorTokenCreate env _ _ _ _) as [processorToken|x]; norm_hist;
    [|by intros [= <-]].
  match goal with |- context [addFundingSource env ?p ?h3] =>
    destruct (addFundingSource_summary env p h3) as (u & ext4 & E4 & _ & _ & Hurl4);
    rewrite E4 end.
  destruct (truthy u) eqn:Hu; cbn [negb]; norm_hist; [|by intros [= <-]].
  destruct (Hurl4 eq_refl) as (url & e4 & -> & Hne & He4 & Hreg).
  destruct (utils_encryptId env _) as [shareable|x]; norm_hist; [|by intros [= <-]].
  match goal with |- context [createBankAccount env ?p ?h5] =>
    pose proof (createBankAccount_summary env p h5) as (v5 & ext5 & E5 & Hstep5 & _);
    rewrite E5 end.
  norm_hist.
  assert (∃ attempt, attempt ∈ ext5) as [attempt Hattempt].
  { match type of E5 with createBankAccount env ?p ?h5 = _ =>
      destruct (createBankAccount_starts p h5) as (outcome & others & w & Hstart) end.
    rewrite Hstart in E5. injection E5 as _ Heq%app_inv_head. subst ext5.
    eexists. apply list_elem_of_here. }
  destruct (next_revalidatePath env _ _) as [[]|x]; norm_hist; [|by intros [= <-]].
  destruct (utils_parseStringify env _) as [complete|x] eqn:Hparse; norm_hist;
    [|by intros [= <-]].
  cbn [fst snd]. intros [= ->] _.
  eexists _, url, e4, attempt. split; [reflexivity|].
  split; [do 3 apply list_elem_of_further; apply elem_of_app; by left|].
  split; [done|]. split; [done|].
  split.
  { do 3 apply list_elem_of_further. apply elem_of_app. right.
    apply elem_of_app. by left. }
  split; [by apply Hstep5|]. split; [|done].
  rewrite !app_comm_cons, !app_assoc. apply last_snoc.
Qed.

End Completion.

Lemma exchangePublicToken_defined_result_witness :
  ∃ new url registration,
    (exchangePublicToken (Double.env_of Double.healthy) Double.link_request []).2 = new
    ∧ registration ∈ new
    ∧ registered_funding_source url registration
    ∧ url ≠ "".
Proof.
  destruct (exchangePublicToken_defined_result (Double.env_of Double.healthy)
              Double.link_request [] _ eq_refl)
    as (new & url & registration & attempt & Htrace & Hin & Hreg & Hne & _);
    [discriminate|].
  exists new, url, registration.
  split; [exact Htrace|]. split; [exact Hin|]. split; [exact Hreg|exact Hne].
Defined.

(** With a session and a User document that has a name, the page greets
    by that name. *)
Example Home_signed_in :
  (Home (Double.env_of (Double.stocked MoreDoubles.named_user)) MoreDoubles.session_env []).1
  = Normal {| headerBox_user := VStr "Ada Byron";
              rightSidebar_user :=
                Double.document "u-1" (<["name" := VStr "Ada Byron"]> ∅) |}.
Proof. reflexivity. Qed.
